(** * The observable cache layer of telemetry-demo-go

    A shallow embedding of the TTL cache ([internal/cache]), the in-memory
    and Dapr subscriber repositories ([internal/repository]), the subscriber
    service that composes them ([internal/service]) and the test span
    recorder ([internal/telemetry]), followed by the properties the
    specification states about them.

    Conventions of the embedding:
    - a [time.Time] is an instant on the monotonic clock, a [Z] count of
      nanoseconds; a [time.Duration] is a [Z] count of nanoseconds;
    - a [*models.Subscriber] is a location of a heap of subscriber records,
      so that the repository, the cache and the caller share one object;
    - every method is a function on the [World], the mutable state of the
      process; the instant a method reads with [time.Now()] is an argument
      of the method, and calls are taken one at a time (the locks make each
      critical section atomic);
    - a span is appended to the recorder when [span.End()] runs, which is the
      order in which [trace.WithSyncer] hands spans to the exporter. *)

From Stdlib Require Import ZArith Ascii String DecimalString List Bool Lia.
From stdpp Require Import base option list gmap strings fin_maps.

Local Open Scope string_scope.
Local Open Scope list_scope.

(** ** Go values *)

Definition Time := Z.
Definition Duration := Z.
Bind Scope Z_scope with Time Duration.

(** [t.Add(d)] *)
Definition Time_Add (t : Time) (d : Duration) : Time := (t + d)%Z.

(** [t.After(u)]: t is strictly later than u. *)
Definition Time_After (t u : Time) : bool := (u <? t)%Z.

Definition Millisecond : Duration := 1000000%Z.
Definition Second : Duration := (1000 * Millisecond)%Z.
Definition Minute : Duration := (60 * Second)%Z.

(** [uuid.UUID] is [[16]byte]; the number is the big-endian value of the bytes. *)
Definition UUID := N.

(** A Go [error] is represented by its message; [nil] is [None]. *)
Definition error := string.

(** The outcome of a method that returns [(v, nil)] or [(nil, err)]. *)
Inductive result (A : Type) : Type :=
| Ok (v : A)
| Err (e : error).
Arguments Ok {A} v.
Arguments Err {A} e.

Definition is_Ok {A} (r : result A) : bool :=
  match r with Ok _ => true | Err _ => false end.

(** ** models.Subscriber *)

Record Subscriber := mkSubscriber {
  ID : UUID;
  Email : string;
  Name : string;
  CreatedAt : Time;
  UpdatedAt : Time;
}.

Record CreateSubscriberRequest := mkCreateSubscriberRequest {
  req_Email : string;
  req_Name : string;
}.

Definition loc := positive.

(** The zero value of the struct. *)
Definition zeroSubscriber : Subscriber := mkSubscriber 0%N "" "" 0%Z 0%Z.

(** ** Spans and their attributes *)

(** [attribute.Value]: the three kinds this program attaches to spans. *)
Inductive Value :=
| VString (s : string)
| VInt (n : Z)
| VBool (b : bool).

(** [Value.AsString()] is the empty string on a value that is not a string. *)
Definition AsString (v : Value) : string :=
  match v with
  | VString s => s
  | _ => ""
  end.

Definition KeyValue : Type := string * Value.

Definition attribute_String (k v : string) : KeyValue := (k, VString v).
Definition attribute_Bool (k : string) (b : bool) : KeyValue := (k, VBool b).
Definition attribute_Int (k : string) (n : Z) : KeyValue := (k, VInt n).

(** A span as the exporter sees it ([trace.ReadOnlySpan]). *)
Record Span := mkSpan {
  span_Name : string;
  span_Attributes : list KeyValue;
  span_Errors : list error;
}.

(** [tracer.Start(ctx, name, trace.WithAttributes(attrs...))] *)
Definition tracer_Start (name : string) (attrs : list KeyValue) : Span :=
  mkSpan name attrs [].

(** [span.SetAttributes(attrs...)] *)
Definition SetAttributes (s : Span) (attrs : list KeyValue) : Span :=
  mkSpan (span_Name s) (span_Attributes s ++ attrs) (span_Errors s).

(** [span.RecordError(err)] *)
Definition RecordError (s : Span) (e : error) : Span :=
  mkSpan (span_Name s) (span_Attributes s) (span_Errors s ++ [e]).

(** ** telemetry.TestSpanRecorder *)

Module TestSpanRecorder.

(** The state of the recorder is its [spans] slice. *)
Definition t := list Span.

Definition NewTestSpanRecorder : t := [].

Definition ExportSpans (r : t) (spans : list Span) : t := r ++ spans.

Definition GetSpans (r : t) : list Span := r.

(** The loop of [GetSpansByName], with [result] as accumulator. *)
Fixpoint GetSpansByName_loop (name : string) (spans result : list Span) : list Span :=
  match spans with
  | [] => result
  | span :: rest =>
      if String.eqb (span_Name span) name
      then GetSpansByName_loop name rest (result ++ [span])
      else GetSpansByName_loop name rest result
  end.

Definition GetSpansByName (r : t) (name : string) : list Span :=
  GetSpansByName_loop name r [].

(** The inner loop of [GetSpansByOperation] over one span's attributes:
    [true] when the loop reaches its [break]. *)
Fixpoint attrs_loop (operation : string) (attrs : list KeyValue) : bool :=
  match attrs with
  | [] => false
  | attr :: rest =>
      if String.eqb (fst attr) "operation" && String.eqb (AsString (snd attr)) operation
      then true
      else attrs_loop operation rest
  end.

(** The outer loop of [GetSpansByOperation]. *)
Fixpoint GetSpansByOperation_loop (operation : string) (spans result : list Span) : list Span :=
  match spans with
  | [] => result
  | span :: rest =>
      if attrs_loop operation (span_Attributes span)
      then GetSpansByOperation_loop operation rest (result ++ [span])
      else GetSpansByOperation_loop operation rest result
  end.

Definition GetSpansByOperation (r : t) (operation : string) : list Span :=
  GetSpansByOperation_loop operation r [].

Definition Clear (r : t) : t := [].

Definition Count (r : t) : nat := length r.

(** A sequence of [ExportSpans] calls, one per batch. *)
Definition ExportAll (r : t) (batches : list (list Span)) : t :=
  fold_left ExportSpans batches r.

End TestSpanRecorder.

(** A span has an attribute entry [operation == x]: the key is
    [operation] and the value, read as a string, is [x]. *)
Definition has_operation (x : string) (s : Span) : Prop :=
  Exists (fun kv : KeyValue => fst kv = "operation" /\ AsString (snd kv) = x)
         (span_Attributes s).

#[global] Instance has_operation_dec x s : Decision (has_operation x s).
Proof. unfold has_operation. apply _. Defined.

(** The values of the attributes of a span under a key, in order. *)
Definition attr_values (k : string) (s : Span) : list Value :=
  map snd (filter (fun kv : KeyValue => fst kv = k) (span_Attributes s)).

(** ** logging.ContextLogger *)

Inductive Level := InfoLevel | WarnLevel | ErrorLevel.

Record LogEntry := mkLogEntry {
  log_Level : Level;
  log_Message : string;
  log_Fields : list (string * Value);
  log_Error : option error;
}.

(** ** The state of the process *)

(** [cache.cacheItem] *)
Record cacheItem := mkCacheItem {
  subscriber : loc;
  expireAt : Time;
}.

Record World := mkWorld {
  heap : gmap loc Subscriber;            (* the subscriber objects *)
  recorder : TestSpanRecorder.t;         (* the exporter of the tracer provider *)
  logs : list LogEntry;                  (* what the logger has written *)
  repo_subscribers : gmap UUID loc;      (* InMemorySubscriberRepository.subscribers *)
  cache_items : gmap string cacheItem;   (* InMemoryCache.items *)
}.

Definition emptyWorld : World := mkWorld ∅ TestSpanRecorder.NewTestSpanRecorder [] ∅ ∅.

Definition set_heap (h : gmap loc Subscriber) (w : World) : World :=
  mkWorld h (recorder w) (logs w) (repo_subscribers w) (cache_items w).
Definition set_recorder (r : TestSpanRecorder.t) (w : World) : World :=
  mkWorld (heap w) r (logs w) (repo_subscribers w) (cache_items w).
Definition set_logs (l : list LogEntry) (w : World) : World :=
  mkWorld (heap w) (recorder w) l (repo_subscribers w) (cache_items w).
Definition set_repo_subscribers (m : gmap UUID loc) (w : World) : World :=
  mkWorld (heap w) (recorder w) (logs w) m (cache_items w).
Definition set_cache_items (m : gmap string cacheItem) (w : World) : World :=
  mkWorld (heap w) (recorder w) (logs w) (repo_subscribers w) m.

(** A method: it returns a value and leaves a new state. *)
Definition M (A : Type) : Type := World -> A * World.

(** [*p] for a subscriber pointer. Every pointer the program holds comes
    from [NewSubscriber] or from one of the maps and points to an object;
    the zero value stands for the content of any other location. *)
Definition deref (w : World) (p : loc) : Subscriber :=
  default zeroSubscriber (heap w !! p).

(** [&models.Subscriber{...}]: a new object at an unused location. *)
Definition new_object (s : Subscriber) : M loc := fun w =>
  let p := fresh (dom (heap w)) in
  (p, set_heap (<[p := s]> (heap w)) w).

(** Assignments to the fields of [*p]. *)
Definition assign (p : loc) (f : Subscriber -> Subscriber) (w : World) : World :=
  set_heap (<[p := f (deref w p)]> (heap w)) w.

(** [span.End()]: the finished span goes to the exporter. *)
Definition span_End (s : Span) (w : World) : World :=
  set_recorder (TestSpanRecorder.ExportSpans (recorder w) [s]) w.

(** The spans that running [m] from [w] adds to the recorder. *)
Definition emitted {A} (m : M A) (w : World) : list Span :=
  drop (TestSpanRecorder.Count (recorder w)) (recorder (snd (m w))).

Definition log (lvl : Level) (msg : string) (fields : list (string * Value))
    (e : option error) (w : World) : World :=
  set_logs (logs w ++ [mkLogEntry lvl msg fields e]) w.

Definition InfoWithTracing (msg : string) (fields : list (string * Value)) : World -> World :=
  log InfoLevel msg fields None.
Definition WarnWithTracing (msg : string) (fields : list (string * Value)) : World -> World :=
  log WarnLevel msg fields None.
Definition ErrorWithTracing (msg : string) (e : error) (fields : list (string * Value)) : World -> World :=
  log ErrorLevel msg fields (Some e).

(** ** Library functions the program calls

    [uuid.UUID.String], [uuid.Parse] and [time.Duration.String] belong to
    the libraries the program imports; the development is parametric in
    them. *)
Class Library := {
  uuid_String : UUID -> string;
  uuid_Parse : string -> result UUID;
  Duration_String : Duration -> string;
}.

(** ** cache.InMemoryCache *)

Module InMemoryCache.
Section WithLibrary.
Context `{Library}.

Definition Get (now : Time) (key : string) : M (result loc) := fun w =>
  let span := tracer_Start "cache.get"
    [attribute_String "cache.key" key;
     attribute_String "operation" "cache.read"] in
  match cache_items w !! key with
  | None =>
      let span := SetAttributes span
        [attribute_Bool "cache.hit" false;
         attribute_String "cache.result" "miss"] in
      (Err "key not found in cache", span_End span w)
  | Some item =>
      if Time_After now (expireAt item) then
        let span := SetAttributes span
          [attribute_Bool "cache.hit" false;
           attribute_String "cache.result" "expired"] in
        (Err "key expired in cache", span_End span w)
      else
        let span := SetAttributes span
          [attribute_Bool "cache.hit" true;
           attribute_String "cache.result" "hit";
           attribute_String "subscriber.id" (uuid_String (ID (deref w (subscriber item))))] in
        (Ok (subscriber item), span_End span w)
  end.

Definition Set' (now : Time) (key : string) (subscriber : loc) (ttl : Duration)
    : M (option error) := fun w =>
  let span := tracer_Start "cache.set"
    [attribute_String "cache.key" key;
     attribute_String "subscriber.id" (uuid_String (ID (deref w subscriber)));
     attribute_String "operation" "cache.write";
     attribute_String "ttl" (Duration_String ttl)] in
  let w := set_cache_items
    (<[key := mkCacheItem subscriber (Time_Add now ttl)]> (cache_items w)) w in
  let span := SetAttributes span [attribute_Bool "success" true] in
  (None, span_End span w).

Definition Delete (key : string) : M (option error) := fun w =>
  let span := tracer_Start "cache.delete"
    [attribute_String "cache.key" key;
     attribute_String "operation" "cache.write"] in
  let exists_ := bool_decide (is_Some (cache_items w !! key)) in
  let w := set_cache_items (delete key (cache_items w)) w in
  let span := SetAttributes span
    [attribute_Bool "key.existed" exists_;
     attribute_Bool "success" true] in
  (None, span_End span w).

Definition Clear : M (option error) := fun w =>
  let span := tracer_Start "cache.clear"
    [attribute_String "operation" "cache.write"] in
  let itemCount := size (cache_items w) in
  let w := set_cache_items ∅ w in
  let span := SetAttributes span
    [attribute_Int "items.cleared" (Z.of_nat itemCount);
     attribute_Bool "success" true] in
  (None, span_End span w).

(** One wake of the reaper [cleanup] at instant [now]: the loop deletes
    every entry with [now.After(item.expireAt)] and keeps the others. *)
Definition cleanup_tick (now : Time) (w : World) : World :=
  set_cache_items
    (filter (fun kv => Time_After now (expireAt (snd kv)) = false) (cache_items w)) w.

(** The wakes of the reaper at the instants [ticks], in order. *)
Definition cleanup (ticks : list Time) (w : World) : World :=
  fold_left (fun w now => cleanup_tick now w) ticks w.

End WithLibrary.
End InMemoryCache.

(** [cache.GenerateCacheKey] *)
Definition GenerateCacheKey `{Library} (id : UUID) : string :=
  "subscriber:" +:+ uuid_String id.

(** ** repository.InMemorySubscriberRepository *)

Module InMemorySubscriberRepository.
Section WithLibrary.
Context `{Library}.

Definition Create (subscriber : loc) : M (option error) := fun w =>
  let s := deref w subscriber in
  let span := tracer_Start "subscriber.repository.create"
    [attribute_String "subscriber.id" (uuid_String (ID s));
     attribute_String "subscriber.email" (Email s);
     attribute_String "operation" "database.write"] in
  match repo_subscribers w !! ID s with
  | Some _ =>
      let span := RecordError span "subscriber already exists" in
      (Some ("subscriber with ID " +:+ uuid_String (ID s) +:+ " already exists"),
       span_End span w)
  | None =>
      let w := set_repo_subscribers (<[ID s := subscriber]> (repo_subscribers w)) w in
      let span := SetAttributes span [attribute_Bool "success" true] in
      (None, span_End span w)
  end.

Definition GetByID (id : string) : M (result loc) := fun w =>
  match uuid_Parse id with
  | Err err => (Err ("invalid UUID format: " +:+ err), w)
  | Ok parsedID =>
      let span := tracer_Start "subscriber.repository.get_by_id"
        [attribute_String "subscriber.id" id;
         attribute_String "operation" "database.read"] in
      match repo_subscribers w !! parsedID with
      | None =>
          let span := RecordError span "subscriber not found" in
          (Err ("subscriber with ID " +:+ id +:+ " not found"), span_End span w)
      | Some subscriber =>
          let span := SetAttributes span [attribute_Bool "success" true] in
          (Ok subscriber, span_End span w)
      end
  end.

(** Go leaves the order of a [range] over a map unspecified; the model
    takes the order of [map_to_list]. *)
Definition GetAll : M (result (list loc)) := fun w =>
  let span := tracer_Start "subscriber.repository.get_all"
    [attribute_String "operation" "database.read"] in
  let subscribers := map snd (map_to_list (repo_subscribers w)) in
  let span := SetAttributes span
    [attribute_Int "subscriber.count" (Z.of_nat (length subscribers));
     attribute_Bool "success" true] in
  (Ok subscribers, span_End span w).

Definition Update (now : Time) (subscriber : loc) : M (option error) := fun w =>
  let s := deref w subscriber in
  let span := tracer_Start "subscriber.repository.update"
    [attribute_String "subscriber.id" (uuid_String (ID s));
     attribute_String "operation" "database.write"] in
  match repo_subscribers w !! ID s with
  | None =>
      let span := RecordError span "subscriber not found" in
      (Some ("subscriber with ID " +:+ uuid_String (ID s) +:+ " not found"),
       span_End span w)
  | Some _ =>
      let w := assign subscriber
        (fun s => mkSubscriber (ID s) (Email s) (Name s) (CreatedAt s) now) w in
      let w := set_repo_subscribers (<[ID s := subscriber]> (repo_subscribers w)) w in
      let span := SetAttributes span [attribute_Bool "success" true] in
      (None, span_End span w)
  end.

Definition Delete (id : string) : M (option error) := fun w =>
  match uuid_Parse id with
  | Err err => (Some ("invalid UUID format: " +:+ err), w)
  | Ok parsedID =>
      let span := tracer_Start "subscriber.repository.delete"
        [attribute_String "subscriber.id" id;
         attribute_String "operation" "database.write"] in
      match repo_subscribers w !! parsedID with
      | None =>
          let span := RecordError span "subscriber not found" in
          (Some ("subscriber with ID " +:+ id +:+ " not found"), span_End span w)
      | Some _ =>
          let w := set_repo_subscribers (delete parsedID (repo_subscribers w)) w in
          let span := SetAttributes span [attribute_Bool "success" true] in
          (None, span_End span w)
      end
  end.

End WithLibrary.
End InMemorySubscriberRepository.

(** ** repository.DaprSubscriberRepository *)

(** The Dapr client and the JSON codec are outside the program: the state
    store calls are arbitrary methods on the world. *)
Class DaprClient := {
  SaveState : string -> string -> string -> M (option error);
  GetState : string -> string -> M (result string);
  DeleteState : string -> string -> M (option error);
  json_Marshal : Subscriber -> result string;
  json_Unmarshal : string -> result Subscriber;
}.

Module DaprSubscriberRepository.
Section WithClient.
Context `{Library} `{DaprClient}.
Variable storeName : string.

Definition Create (subscriber : loc) : M (option error) := fun w =>
  let s := deref w subscriber in
  let span := tracer_Start "subscriber.repository.create"
    [attribute_String "subscriber.id" (uuid_String (ID s));
     attribute_String "subscriber.email" (Email s);
     attribute_String "operation" "database.write";
     attribute_String "dapr.store" storeName] in
  match json_Marshal s with
  | Err err =>
      let span := RecordError span err in
      (Some ("failed to marshal subscriber: " +:+ err), span_End span w)
  | Ok data =>
      let (err, w) := SaveState storeName (uuid_String (ID s)) data w in
      match err with
      | Some err =>
          let span := RecordError span err in
          (Some ("failed to save subscriber to dapr state store: " +:+ err),
           span_End span w)
      | None =>
          let span := SetAttributes span [attribute_Bool "success" true] in
          (None, span_End span w)
      end
  end.

Definition GetByID (id : string) : M (result loc) := fun w =>
  let span := tracer_Start "subscriber.repository.get_by_id"
    [attribute_String "subscriber.id" id;
     attribute_String "operation" "database.read";
     attribute_String "dapr.store" storeName] in
  let (item, w) := GetState storeName id w in
  match item with
  | Err err =>
      let span := RecordError span err in
      (Err ("failed to get subscriber from dapr state store: " +:+ err),
       span_End span w)
  | Ok value =>
      if (String.length value =? 0)%nat then
        let span := SetAttributes span [attribute_Bool "found" false] in
        (Err "subscriber not found", span_End span w)
      else
        match json_Unmarshal value with
        | Err err =>
            let span := RecordError span err in
            (Err ("failed to unmarshal subscriber: " +:+ err), span_End span w)
        | Ok subscriber =>
            let span := SetAttributes span
              [attribute_Bool "success" true;
               attribute_Bool "found" true;
               attribute_String "subscriber.email" (Email subscriber)] in
            let (p, w) := new_object subscriber w in
            (Ok p, span_End span w)
        end
  end.

Definition GetAll : M (result (list loc)) := fun w =>
  let span := tracer_Start "subscriber.repository.get_all"
    [attribute_String "operation" "database.read";
     attribute_String "dapr.store" storeName] in
  let span := SetAttributes span
    [attribute_String "error" "get_all not supported by dapr state store"] in
  (Err "GetAll operation not supported by Dapr state store - use a database with query capabilities for this operation",
   span_End span w).

(** [GetByID] never returns a nil subscriber with a nil error, so the
    [existing == nil] test of [Update] and [Delete] is never taken. *)
Definition Update (subscriber : loc) : M (option error) := fun w =>
  let s := deref w subscriber in
  let span := tracer_Start "subscriber.repository.update"
    [attribute_String "subscriber.id" (uuid_String (ID s));
     attribute_String "subscriber.email" (Email s);
     attribute_String "operation" "database.write";
     attribute_String "dapr.store" storeName] in
  let (existing, w) := GetByID (uuid_String (ID s)) w in
  match existing with
  | Err err =>
      let span := RecordError span err in
      (Some err, span_End span w)
  | Ok _ =>
      match json_Marshal (deref w subscriber) with
      | Err err =>
          let span := RecordError span err in
          (Some ("failed to marshal subscriber: " +:+ err), span_End span w)
      | Ok data =>
          let (err, w) :=
            SaveState storeName (uuid_String (ID (deref w subscriber))) data w in
          match err with
          | Some err =>
              let span := RecordError span err in
              (Some ("failed to update subscriber in dapr state store: " +:+ err),
               span_End span w)
          | None =>
              let span := SetAttributes span [attribute_Bool "success" true] in
              (None, span_End span w)
          end
      end
  end.

Definition Delete (id : string) : M (option error) := fun w =>
  let span := tracer_Start "subscriber.repository.delete"
    [attribute_String "subscriber.id" id;
     attribute_String "operation" "database.delete";
     attribute_String "dapr.store" storeName] in
  let (existing, w) := GetByID id w in
  match existing with
  | Err err =>
      let span := RecordError span err in
      (Some err, span_End span w)
  | Ok _ =>
      let (err, w) := DeleteState storeName id w in
      match err with
      | Some err =>
          let span := RecordError span err in
          (Some ("failed to delete subscriber from dapr state store: " +:+ err),
           span_End span w)
      | None =>
          let span := SetAttributes span [attribute_Bool "success" true] in
          (None, span_End span w)
      end
  end.

End WithClient.
End DaprSubscriberRepository.

(** ** The interfaces [cache.Cache] and [repository.SubscriberRepository]

    A method that reads the clock takes the instant it reads. *)

Record Cache := mkCache {
  cache_Get : Time -> string -> M (result loc);
  cache_Set : Time -> string -> loc -> Duration -> M (option error);
  cache_Delete : string -> M (option error);
  cache_Clear : M (option error);
}.

Record SubscriberRepository := mkSubscriberRepository {
  repo_Create : loc -> M (option error);
  repo_GetByID : string -> M (result loc);
  repo_GetAll : M (result (list loc));
  repo_Update : Time -> loc -> M (option error);
  repo_Delete : string -> M (option error);
}.

Definition NewInMemoryCache `{Library} : Cache :=
  mkCache InMemoryCache.Get InMemoryCache.Set' InMemoryCache.Delete InMemoryCache.Clear.

Definition NewInMemorySubscriberRepository `{Library} : SubscriberRepository :=
  mkSubscriberRepository
    InMemorySubscriberRepository.Create
    InMemorySubscriberRepository.GetByID
    InMemorySubscriberRepository.GetAll
    InMemorySubscriberRepository.Update
    InMemorySubscriberRepository.Delete.

Definition NewDaprSubscriberRepository `{Library} `{DaprClient} (storeName : string)
    : SubscriberRepository :=
  mkSubscriberRepository
    (DaprSubscriberRepository.Create storeName)
    (DaprSubscriberRepository.GetByID storeName)
    (DaprSubscriberRepository.GetAll storeName)
    (fun _ => DaprSubscriberRepository.Update storeName)
    (DaprSubscriberRepository.Delete storeName).

(** [models.NewSubscriber]: [id] is the value of [uuid.New()]. *)
Definition NewSubscriber (id : UUID) (now : Time) (email name : string) : M loc :=
  new_object (mkSubscriber id email name now now).

(** ** service.SubscriberService

    The service hands the repository the text of the id, which is what the
    repository interface takes. *)

Module SubscriberService.
Section Service.
Context `{Library}.
Variable repo : SubscriberRepository.
Variable cache : Cache.

Definition CreateSubscriber (newID : UUID) (tNew tSet : Time)
    (req : CreateSubscriberRequest) : M (result loc) := fun w =>
  let span := tracer_Start "subscriber.service.create"
    [attribute_String "subscriber.email" (req_Email req);
     attribute_String "subscriber.name" (req_Name req)] in
  let w := InfoWithTracing "Creating new subscriber"
    [("email", VString (req_Email req)); ("name", VString (req_Name req))] w in
  let (subscriber, w) := NewSubscriber newID tNew (req_Email req) (req_Name req) w in
  let (err, w) := repo_Create repo subscriber w in
  match err with
  | Some err =>
      let w := ErrorWithTracing "Failed to create subscriber" err
        [("subscriber_id", VString (uuid_String (ID (deref w subscriber))));
         ("email", VString (req_Email req))] w in
      let span := RecordError span err in
      (Err err, span_End span w)
  | None =>
      let cacheKey := GenerateCacheKey (ID (deref w subscriber)) in
      let (err, w) := cache_Set cache tSet cacheKey subscriber (5 * Minute)%Z w in
      let w :=
        match err with
        | Some err =>
            WarnWithTracing "Failed to cache subscriber"
              [("subscriber_id", VString (uuid_String (ID (deref w subscriber))));
               ("error", VString err)] w
        | None => w
        end in
      let w := InfoWithTracing "Successfully created subscriber"
        [("subscriber_id", VString (uuid_String (ID (deref w subscriber))));
         ("email", VString (Email (deref w subscriber)))] w in
      let span := SetAttributes span
        [attribute_String "subscriber.id" (uuid_String (ID (deref w subscriber)));
         attribute_Bool "success" true] in
      (Ok subscriber, span_End span w)
  end.

Definition GetSubscriber (tGet tSet : Time) (id : UUID) : M (result loc) := fun w =>
  let span := tracer_Start "subscriber.service.get"
    [attribute_String "subscriber.id" (uuid_String id)] in
  let w := InfoWithTracing "Retrieving subscriber"
    [("subscriber_id", VString (uuid_String id))] w in
  let cacheKey := GenerateCacheKey id in
  let (cached, w) := cache_Get cache tGet cacheKey w in
  match cached with
  | Ok subscriber =>
      let w := InfoWithTracing "Subscriber found in cache"
        [("subscriber_id", VString (uuid_String id))] w in
      let span := SetAttributes span
        [attribute_Bool "cache.hit" true;
         attribute_Bool "success" true] in
      (Ok subscriber, span_End span w)
  | Err _ =>
      let w := InfoWithTracing "Subscriber not in cache, fetching from database"
        [("subscriber_id", VString (uuid_String id))] w in
      let (found, w) := repo_GetByID repo (uuid_String id) w in
      match found with
      | Err err =>
          let w := ErrorWithTracing "Failed to retrieve subscriber" err
            [("subscriber_id", VString (uuid_String id))] w in
          let span := RecordError span err in
          (Err err, span_End span w)
      | Ok subscriber =>
          let (err, w) := cache_Set cache tSet cacheKey subscriber (5 * Minute)%Z w in
          let w :=
            match err with
            | Some err =>
                WarnWithTracing "Failed to cache subscriber"
                  [("subscriber_id", VString (uuid_String id)); ("error", VString err)] w
            | None => w
            end in
          let w := InfoWithTracing "Successfully retrieved subscriber"
            [("subscriber_id", VString (uuid_String (ID (deref w subscriber))));
             ("email", VString (Email (deref w subscriber)))] w in
          let span := SetAttributes span
            [attribute_Bool "cache.hit" false;
             attribute_Bool "success" true] in
          (Ok subscriber, span_End span w)
      end
  end.

Definition GetAllSubscribers : M (result (list loc)) := fun w =>
  let span := tracer_Start "subscriber.service.get_all" [] in
  let w := InfoWithTracing "Retrieving all subscribers" [] w in
  let (found, w) := repo_GetAll repo w in
  match found with
  | Err err =>
      let w := ErrorWithTracing "Failed to retrieve subscribers" err [] w in
      let span := RecordError span err in
      (Err err, span_End span w)
  | Ok subscribers =>
      let w := InfoWithTracing "Successfully retrieved all subscribers"
        [("count", VInt (Z.of_nat (length subscribers)))] w in
      let span := SetAttributes span
        [attribute_Int "subscriber.count" (Z.of_nat (length subscribers));
         attribute_Bool "success" true] in
      (Ok subscribers, span_End span w)
  end.

Definition UpdateSubscriber (tNow tRepo : Time) (id : UUID)
    (req : CreateSubscriberRequest) : M (result loc) := fun w =>
  let span := tracer_Start "subscriber.service.update"
    [attribute_String "subscriber.id" (uuid_String id)] in
  let w := InfoWithTracing "Updating subscriber"
    [("subscriber_id", VString (uuid_String id));
     ("email", VString (req_Email req)); ("name", VString (req_Name req))] w in
  let (found, w) := repo_GetByID repo (uuid_String id) w in
  match found with
  | Err err =>
      let w := ErrorWithTracing "Failed to find subscriber for update" err
        [("subscriber_id", VString (uuid_String id))] w in
      let span := RecordError span err in
      (Err err, span_End span w)
  | Ok existing =>
      let w := assign existing
        (fun e => mkSubscriber (ID e) (req_Email req) (req_Name req) (CreatedAt e) tNow) w in
      let (err, w) := repo_Update repo tRepo existing w in
      match err with
      | Some err =>
          let w := ErrorWithTracing "Failed to update subscriber" err
            [("subscriber_id", VString (uuid_String id))] w in
          let span := RecordError span err in
          (Err err, span_End span w)
      | None =>
          let cacheKey := GenerateCacheKey id in
          let (err, w) := cache_Delete cache cacheKey w in
          let w :=
            match err with
            | Some err =>
                WarnWithTracing "Failed to invalidate cache"
                  [("subscriber_id", VString (uuid_String id)); ("error", VString err)] w
            | None => w
            end in
          let w := InfoWithTracing "Successfully updated subscriber"
            [("subscriber_id", VString (uuid_String (ID (deref w existing))));
             ("email", VString (Email (deref w existing)))] w in
          let span := SetAttributes span [attribute_Bool "success" true] in
          (Ok existing, span_End span w)
      end
  end.

Definition DeleteSubscriber (id : UUID) : M (option error) := fun w =>
  let span := tracer_Start "subscriber.service.delete"
    [attribute_String "subscriber.id" (uuid_String id)] in
  let w := InfoWithTracing "Deleting subscriber"
    [("subscriber_id", VString (uuid_String id))] w in
  let (err, w) := repo_Delete repo (uuid_String id) w in
  match err with
  | Some err =>
      let w := ErrorWithTracing "Failed to delete subscriber" err
        [("subscriber_id", VString (uuid_String id))] w in
      let span := RecordError span err in
      (Some err, span_End span w)
  | None =>
      let cacheKey := GenerateCacheKey id in
      let (err, w) := cache_Delete cache cacheKey w in
      let w :=
        match err with
        | Some err =>
            WarnWithTracing "Failed to remove from cache"
              [("subscriber_id", VString (uuid_String id)); ("error", VString err)] w
        | None => w
        end in
      let w := InfoWithTracing "Successfully deleted subscriber"
        [("subscriber_id", VString (uuid_String id))] w in
      let span := SetAttributes span [attribute_Bool "success" true] in
      (None, span_End span w)
  end.

End Service.
End SubscriberService.

(** ** An instance of the library functions

    The canonical text of a uuid, 32 hex digits grouped 8-4-4-4-12, its
    parser, and durations written as a count of nanoseconds. *)

Module Canonical.

Definition hex_char (d : N) : ascii :=
  ascii_of_N (if (d <? 10)%N then 48 + d else 87 + d).

Fixpoint hex_digits (k : nat) (n : N) (acc : string) : string :=
  match k with
  | O => acc
  | S k' => hex_digits k' (n / 16)%N (String (hex_char (n mod 16)%N) acc)
  end.

Definition String (u : UUID) : string :=
  let h := hex_digits 32 u "" in
  substring 0 8 h +:+ "-" +:+ substring 8 4 h +:+ "-" +:+ substring 12 4 h
    +:+ "-" +:+ substring 16 4 h +:+ "-" +:+ substring 20 12 h.

Definition hex_value (c : ascii) : option N :=
  let n := N_of_ascii c in
  if (48 <=? n)%N && (n <=? 57)%N then Some (n - 48)%N
  else if (97 <=? n)%N && (n <=? 102)%N then Some (n - 87)%N
  else if (65 <=? n)%N && (n <=? 70)%N then Some (n - 55)%N
  else None.

Definition is_dash_position (i : nat) : bool :=
  (i =? 8)%nat || (i =? 13)%nat || (i =? 18)%nat || (i =? 23)%nat.

Fixpoint Parse_loop (i : nat) (s : string) (acc : N) : result UUID :=
  match s with
  | EmptyString => Ok acc
  | String.String c rest =>
      if is_dash_position i then
        if Ascii.eqb c "-"%char then Parse_loop (S i) rest acc
        else Err "invalid UUID format"
      else
        match hex_value c with
        | Some d => Parse_loop (S i) rest (16 * acc + d)%N
        | None => Err "invalid UUID format"
        end
  end.

Definition Parse (s : string) : result UUID :=
  if (String.length s =? 36)%nat then Parse_loop 0 s 0%N
  else Err "invalid UUID length".

Definition nanoseconds (d : Duration) : string :=
  NilZero.string_of_int (Z.to_int d) +:+ "ns".

Definition library : Library :=
  {| uuid_String := String; uuid_Parse := Parse; Duration_String := nanoseconds |}.

End Canonical.

(** ** The mutating calls of the in-memory repository, as one type *)

Inductive mutation :=
| CreateCall (subscriber : loc)
| UpdateCall (now : Time) (subscriber : loc)
| DeleteCall (id : string).

Definition mutate `{Library} (m : mutation) : M (option error) :=
  match m with
  | CreateCall subscriber => InMemorySubscriberRepository.Create subscriber
  | UpdateCall now subscriber => InMemorySubscriberRepository.Update now subscriber
  | DeleteCall id => InMemorySubscriberRepository.Delete id
  end.

(** The operation tags the tests query. *)
Definition database_tags : list Value :=
  [VString "database.read"; VString "database.write"].
Definition cache_tags : list Value :=
  [VString "cache.read"; VString "cache.write"].

(** ** Failure semantics of the read-through flow, operation by operation

    For each operation of the service: the call it makes to the origin
    ([origin]), the call it then makes to the cache ([population] or
    [invalidation]), and what the operation returns in terms of the two.
    [other] is any cache that answers [Get] as [cache] does. *)

Section FailureSemantics.
Context `{Library}.
Variable repo : SubscriberRepository.
Variables cache other : Cache.

(** A warning that carries the cache's error was the last thing logged
    before the closing information line. *)
Definition warned (message : string) (ce : error) (before after : World) : Prop :=
  exists fields info,
    logs after =
      logs before ++ [mkLogEntry WarnLevel message fields None; info] /\
    In ("error", VString ce) fields /\
    log_Level info = InfoLevel.

Definition Create_failure_semantics (newID : UUID) (tNew tSet : Time)
    (req : CreateSubscriberRequest) (w : World) : Prop :=
  let w0 := InfoWithTracing "Creating new subscriber"
    [("email", VString (req_Email req)); ("name", VString (req_Name req))] w in
  let created := NewSubscriber newID tNew (req_Email req) (req_Name req) w0 in
  let origin := repo_Create repo (fst created) (snd created) in
  let population :=
    cache_Set cache tSet (GenerateCacheKey (ID (deref (snd origin) (fst created))))
      (fst created) (5 * Minute)%Z (snd origin) in
  let r := SubscriberService.CreateSubscriber repo cache newID tNew tSet req w in
  (forall e, fst origin = Some e ->
     fst r = Err e /\
     snd r = snd (SubscriberService.CreateSubscriber repo other newID tNew tSet req w)) /\
  (fst origin = None ->
     fst r = Ok (fst created) /\
     forall ce, fst population = Some ce ->
       warned "Failed to cache subscriber" ce (snd population) (snd r)) /\
  fst (SubscriberService.CreateSubscriber repo other newID tNew tSet req w) = fst r.

Definition Get_failure_semantics (tGet tSet : Time) (id : UUID) (w : World) : Prop :=
  let w0 := InfoWithTracing "Retrieving subscriber"
    [("subscriber_id", VString (uuid_String id))] w in
  let lookup := cache_Get cache tGet (GenerateCacheKey id) w0 in
  let w1 := InfoWithTracing "Subscriber not in cache, fetching from database"
    [("subscriber_id", VString (uuid_String id))] (snd lookup) in
  let origin := repo_GetByID repo (uuid_String id) w1 in
  let population subscriber :=
    cache_Set cache tSet (GenerateCacheKey id) subscriber (5 * Minute)%Z (snd origin) in
  let r := SubscriberService.GetSubscriber repo cache tGet tSet id w in
  (forall subscriber, fst lookup = Ok subscriber -> fst r = Ok subscriber) /\
  (forall miss e, fst lookup = Err miss -> fst origin = Err e ->
     fst r = Err e /\
     (cache_Get other = cache_Get cache ->
      snd r = snd (SubscriberService.GetSubscriber repo other tGet tSet id w))) /\
  (forall miss subscriber, fst lookup = Err miss -> fst origin = Ok subscriber ->
     fst r = Ok subscriber /\
     forall ce, fst (population subscriber) = Some ce ->
       warned "Failed to cache subscriber" ce (snd (population subscriber)) (snd r)) /\
  (cache_Get other = cache_Get cache ->
   fst (SubscriberService.GetSubscriber repo other tGet tSet id w) = fst r).

Definition Update_failure_semantics (tNow tRepo : Time) (id : UUID)
    (req : CreateSubscriberRequest) (w : World) : Prop :=
  let w0 := InfoWithTracing "Updating subscriber"
    [("subscriber_id", VString (uuid_String id));
     ("email", VString (req_Email req)); ("name", VString (req_Name req))] w in
  let found := repo_GetByID repo (uuid_String id) w0 in
  let origin existing :=
    repo_Update repo tRepo existing
      (assign existing
         (fun e => mkSubscriber (ID e) (req_Email req) (req_Name req) (CreatedAt e) tNow)
         (snd found)) in
  let invalidation existing :=
    cache_Delete cache (GenerateCacheKey id) (snd (origin existing)) in
  let r := SubscriberService.UpdateSubscriber repo cache tNow tRepo id req w in
  (forall e, fst found = Err e ->
     fst r = Err e /\
     snd r = snd (SubscriberService.UpdateSubscriber repo other tNow tRepo id req w)) /\
  (forall existing e, fst found = Ok existing -> fst (origin existing) = Some e ->
     fst r = Err e /\
     snd r = snd (SubscriberService.UpdateSubscriber repo other tNow tRepo id req w)) /\
  (forall existing, fst found = Ok existing -> fst (origin existing) = None ->
     fst r = Ok existing /\
     forall ce, fst (invalidation existing) = Some ce ->
       warned "Failed to invalidate cache" ce (snd (invalidation existing)) (snd r)) /\
  fst (SubscriberService.UpdateSubscriber repo other tNow tRepo id req w) = fst r.

Definition Delete_failure_semantics (id : UUID) (w : World) : Prop :=
  let w0 := InfoWithTracing "Deleting subscriber"
    [("subscriber_id", VString (uuid_String id))] w in
  let origin := repo_Delete repo (uuid_String id) w0 in
  let invalidation := cache_Delete cache (GenerateCacheKey id) (snd origin) in
  let r := SubscriberService.DeleteSubscriber repo cache id w in
  (forall e, fst origin = Some e ->
     fst r = Some e /\
     snd r = snd (SubscriberService.DeleteSubscriber repo other id w)) /\
  (fst origin = None ->
     fst r = None /\
     forall ce, fst invalidation = Some ce ->
       warned "Failed to remove from cache" ce (snd invalidation) (snd r)) /\
  fst (SubscriberService.DeleteSubscriber repo other id w) = fst r.

End FailureSemantics.

(** A cache whose every call fails. *)
Definition failingCache (e : error) : Cache :=
  mkCache (fun _ _ w => (Err e, w)) (fun _ _ _ _ w => (Some e, w))
          (fun _ w => (Some e, w)) (fun w => (Some e, w)).

(** ** The application as [app.Build] wires it: the service over the
    in-memory repository and the in-memory cache *)

Module Application.
Section WithLibrary.
Context `{Library}.

Definition CreateSubscriber :=
  SubscriberService.CreateSubscriber NewInMemorySubscriberRepository NewInMemoryCache.
Definition GetSubscriber :=
  SubscriberService.GetSubscriber NewInMemorySubscriberRepository NewInMemoryCache.
Definition UpdateSubscriber :=
  SubscriberService.UpdateSubscriber NewInMemorySubscriberRepository NewInMemoryCache.
Definition DeleteSubscriber :=
  SubscriberService.DeleteSubscriber NewInMemorySubscriberRepository NewInMemoryCache.

End WithLibrary.
End Application.

(** The names of the spans a read opens after its cache lookup has missed:
    the repository's, when the id parses, and then the cache's [Set], when
    the repository has the subscriber. *)
Definition spans_after_miss `{Library} (id : UUID) (w : World) : list string :=
  match uuid_Parse (uuid_String id) with
  | Err _ => []
  | Ok parsedID =>
      "subscriber.repository.get_by_id" ::
      match repo_subscribers w !! parsedID with
      | Some _ => ["cache.set"]
      | None => []
      end
  end.

(** The names of the spans of one read, in the order they end. *)
Definition spans_of_read `{Library} (tGet : Time) (id : UUID) (w : World) : list string :=
  "cache.get" ::
  match cache_items w !! GenerateCacheKey id with
  | Some item =>
      if Time_After tGet (expireAt item) then spans_after_miss id w else []
  | None => spans_after_miss id w
  end ++ ["subscriber.service.get"].

(** The instant of the last population of the entry before the second
    read: the first read's [Set] if the first read found the entry of the
    create expired, the create's [Set] otherwise. *)
Definition last_population (tSet t1 t1' : Time) : Time :=
  if Time_After t1 (Time_Add tSet (5 * Minute)) then t1' else tSet.

(** The lookup of [key] at [now] finds no live entry. *)
Definition cache_missed (now : Time) (key : string) (w : World) : Prop :=
  match cache_items w !! key with
  | Some item => Time_After now (expireAt item) = true
  | None => True
  end.

(** ** The inputs of the examples *)

Module Scenario.

Definition alice : CreateSubscriberRequest :=
  mkCreateSubscriberRequest "a@x.com" "Alice".

Definition id1 : UUID := 1%N.
Definition id2 : UUID := 2%N.

(** A world that holds one subscriber object, at location 1. *)
Definition oneObject : World :=
  snd (new_object (mkSubscriber id1 "a@x.com" "Alice" 0 0) emptyWorld).

(** A Dapr state store that holds nothing. *)
Definition emptyStore : DaprClient :=
  {| SaveState := fun _ _ _ w => (None, w);
     GetState := fun _ _ w => (Ok "", w);
     DeleteState := fun _ _ w => (None, w);
     json_Marshal := fun _ => Err "unsupported";
     json_Unmarshal := fun _ => Err "unsupported" |}.

#[local] Existing Instance Canonical.library.

(** Alice is created at instant 0 in an empty world. *)
Definition created : result loc * World :=
  Application.CreateSubscriber id1 0 0 alice emptyWorld.

(** The state after a first read, one minute after the create. *)
Definition afterFirstRead : World :=
  snd (Application.GetSubscriber (1 * Minute) (1 * Minute) id1 (snd created)).

(** A second read two minutes after the create, and one six minutes after. *)
Definition secondReadEarly : M (result loc) :=
  Application.GetSubscriber (2 * Minute) (2 * Minute) id1.
Definition secondReadLate : M (result loc) :=
  Application.GetSubscriber (6 * Minute) (6 * Minute) id1.

(** A read of a subscriber that was never created. *)
Definition readUnknown : M (result loc) :=
  Application.GetSubscriber 0 0 id2.

(** The cache after [Set] of key ["k"] at instant 0 with a TTL of five minutes. *)
Definition afterSet : World :=
  snd (InMemoryCache.Set' 0 "k" 1%positive (5 * Minute) oneObject).

(** [Delete] of the Dapr repository on the empty store. *)
Definition daprDelete : M (option error) :=
  @DaprSubscriberRepository.Delete emptyStore
    "statestore" (Canonical.String id1).

End Scenario.

(** ** Invariants of the store and of the cache *)

(** Every pointer the repository holds points to an object, and that
    object carries the id it is stored under. *)
Definition store_consistent (w : World) : Prop :=
  forall id p, repo_subscribers w !! id = Some p ->
    exists s, heap w !! p = Some s /\ ID s = id.

(** The pointer arguments of a call point to objects. *)
Definition call_on_object (m : mutation) (w : World) : Prop :=
  match m with
  | CreateCall subscriber => is_Some (heap w !! subscriber)
  | UpdateCall _ subscriber => is_Some (heap w !! subscriber)
  | DeleteCall _ => True
  end.

(** ** Requests to the application, as one type *)




(** The cache agrees with the store about subscriber [id]: an entry under
    the key of [id], live or not, holds the pointer the store has for [id]. *)
Definition coherent `{Library} (id : UUID) (w : World) : Prop :=
  forall item, cache_items w !! GenerateCacheKey id = Some item ->
    repo_subscribers w !! id = Some (subscriber item).

(** ** handlers.SubscriberHandler

    A handler reads the route parameter [id] and the outcome of
    [c.ShouldBindJSON] from the request, and answers with [c.JSON]: a
    status and a body. A subscriber in a body is the content of the object
    when [c.JSON] encodes it. *)

Inductive Body :=
| ErrorBody (message : string)          (* gin.H{"error": message} *)
| SubscriberBody (s : Subscriber)
| SubscribersBody (l : list Subscriber)
| NoBody.                               (* a status that allows no body *)

Record Response := mkResponse {
  resp_Status : nat;
  resp_Body : Body;
}.

Definition StatusOK : nat := 200.
Definition StatusCreated : nat := 201.
Definition StatusNoContent : nat := 204.
Definition StatusBadRequest : nat := 400.
Definition StatusNotFound : nat := 404.
Definition StatusInternalServerError : nat := 500.

Module SubscriberHandler.
Section Handler.
Context `{Library}.
Variable repo : SubscriberRepository.
Variable cache : Cache.

Definition CreateSubscriber (newID : UUID) (tNew tSet : Time)
    (bound : result CreateSubscriberRequest) : M Response := fun w =>
  let span := tracer_Start "subscriber.handler.create" [] in
  match bound with
  | Err err =>
      let w := ErrorWithTracing "Invalid request payload" err
        [("endpoint", VString "POST /subscribers")] w in
      let span := RecordError span err in
      (mkResponse StatusBadRequest (ErrorBody err), span_End span w)
  | Ok req =>
      let w := InfoWithTracing "Received create subscriber request"
        [("email", VString (req_Email req)); ("name", VString (req_Name req));
         ("endpoint", VString "POST /subscribers")] w in
      let (created, w) :=
        SubscriberService.CreateSubscriber repo cache newID tNew tSet req w in
      match created with
      | Err err =>
          let w := ErrorWithTracing "Failed to create subscriber" err
            [("email", VString (req_Email req));
             ("endpoint", VString "POST /subscribers")] w in
          let span := RecordError span err in
          (mkResponse StatusInternalServerError (ErrorBody "Failed to create subscriber"),
           span_End span w)
      | Ok subscriber =>
          let w := InfoWithTracing "Successfully created subscriber"
            [("subscriber_id", VString (uuid_String (ID (deref w subscriber))));
             ("email", VString (Email (deref w subscriber)));
             ("endpoint", VString "POST /subscribers")] w in
          let span := SetAttributes span
            [attribute_String "subscriber.id" (uuid_String (ID (deref w subscriber)));
             attribute_String "subscriber.email" (Email (deref w subscriber));
             attribute_Bool "success" true] in
          (mkResponse StatusCreated (SubscriberBody (deref w subscriber)),
           span_End span w)
      end
  end.

Definition GetSubscriber (tGet tSet : Time) (idParam : string) : M Response := fun w =>
  let span := tracer_Start "subscriber.handler.get" [] in
  match uuid_Parse idParam with
  | Err err =>
      let w := ErrorWithTracing "Invalid subscriber ID" err
        [("id", VString idParam); ("endpoint", VString "GET /subscribers/:id")] w in
      let span := RecordError span err in
      (mkResponse StatusBadRequest (ErrorBody "Invalid subscriber ID"), span_End span w)
  | Ok id =>
      let w := InfoWithTracing "Received get subscriber request"
        [("subscriber_id", VString (uuid_String id));
         ("endpoint", VString "GET /subscribers/:id")] w in
      let (found, w) := SubscriberService.GetSubscriber repo cache tGet tSet id w in
      match found with
      | Err err =>
          let w := ErrorWithTracing "Failed to get subscriber" err
            [("subscriber_id", VString (uuid_String id));
             ("endpoint", VString "GET /subscribers/:id")] w in
          let span := RecordError span err in
          (mkResponse StatusNotFound (ErrorBody "Subscriber not found"), span_End span w)
      | Ok subscriber =>
          let w := InfoWithTracing "Successfully retrieved subscriber"
            [("subscriber_id", VString (uuid_String (ID (deref w subscriber))));
             ("email", VString (Email (deref w subscriber)));
             ("endpoint", VString "GET /subscribers/:id")] w in
          let span := SetAttributes span
            [attribute_String "subscriber.id" (uuid_String (ID (deref w subscriber)));
             attribute_String "subscriber.email" (Email (deref w subscriber));
             attribute_Bool "success" true] in
          (mkResponse StatusOK (SubscriberBody (deref w subscriber)), span_End span w)
      end
  end.

Definition GetAllSubscribers : M Response := fun w =>
  let span := tracer_Start "subscriber.handler.get_all" [] in
  let w := InfoWithTracing "Received get all subscribers request"
    [("endpoint", VString "GET /subscribers")] w in
  let (found, w) := SubscriberService.GetAllSubscribers repo w in
  match found with
  | Err err =>
      let w := ErrorWithTracing "Failed to get subscribers" err
        [("endpoint", VString "GET /subscribers")] w in
      let span := RecordError span err in
      (mkResponse StatusInternalServerError (ErrorBody "Failed to retrieve subscribers"),
       span_End span w)
  | Ok subscribers =>
      let w := InfoWithTracing "Successfully retrieved all subscribers"
        [("count", VInt (Z.of_nat (length subscribers)));
         ("endpoint", VString "GET /subscribers")] w in
      let span := SetAttributes span
        [attribute_Int "subscriber.count" (Z.of_nat (length subscribers));
         attribute_Bool "success" true] in
      (mkResponse StatusOK (SubscribersBody (map (deref w) subscribers)),
       span_End span w)
  end.

Definition UpdateSubscriber (tNow tRepo : Time) (idParam : string)
    (bound : result CreateSubscriberRequest) : M Response := fun w =>
  let span := tracer_Start "subscriber.handler.update" [] in
  match uuid_Parse idParam with
  | Err err =>
      let w := ErrorWithTracing "Invalid subscriber ID" err
        [("id", VString idParam); ("endpoint", VString "PUT /subscribers/:id")] w in
      let span := RecordError span err in
      (mkResponse StatusBadRequest (ErrorBody "Invalid subscriber ID"), span_End span w)
  | Ok id =>
      match bound with
      | Err err =>
          let w := ErrorWithTracing "Invalid request payload" err
            [("subscriber_id", VString (uuid_String id));
             ("endpoint", VString "PUT /subscribers/:id")] w in
          let span := RecordError span err in
          (mkResponse StatusBadRequest (ErrorBody err), span_End span w)
      | Ok req =>
          let w := InfoWithTracing "Received update subscriber request"
            [("subscriber_id", VString (uuid_String id));
             ("email", VString (req_Email req)); ("name", VString (req_Name req));
             ("endpoint", VString "PUT /subscribers/:id")] w in
          let (updated, w) :=
            SubscriberService.UpdateSubscriber repo cache tNow tRepo id req w in
          match updated with
          | Err err =>
              let w := ErrorWithTracing "Failed to update subscriber" err
                [("subscriber_id", VString (uuid_String id));
                 ("endpoint", VString "PUT /subscribers/:id")] w in
              let span := RecordError span err in
              (mkResponse StatusNotFound (ErrorBody "Subscriber not found"),
               span_End span w)
          | Ok subscriber =>
              let w := InfoWithTracing "Successfully updated subscriber"
                [("subscriber_id", VString (uuid_String (ID (deref w subscriber))));
                 ("email", VString (Email (deref w subscriber)));
                 ("endpoint", VString "PUT /subscribers/:id")] w in
              let span := SetAttributes span
                [attribute_String "subscriber.id" (uuid_String (ID (deref w subscriber)));
                 attribute_String "subscriber.email" (Email (deref w subscriber));
                 attribute_Bool "success" true] in
              (mkResponse StatusOK (SubscriberBody (deref w subscriber)), span_End span w)
          end
      end
  end.

Definition DeleteSubscriber (idParam : string) : M Response := fun w =>
  let span := tracer_Start "subscriber.handler.delete" [] in
  match uuid_Parse idParam with
  | Err err =>
      let w := ErrorWithTracing "Invalid subscriber ID" err
        [("id", VString idParam); ("endpoint", VString "DELETE /subscribers/:id")] w in
      let span := RecordError span err in
      (mkResponse StatusBadRequest (ErrorBody "Invalid subscriber ID"), span_End span w)
  | Ok id =>
      let w := InfoWithTracing "Received delete subscriber request"
        [("subscriber_id", VString (uuid_String id));
         ("endpoint", VString "DELETE /subscribers/:id")] w in
      let (err, w) := SubscriberService.DeleteSubscriber repo cache id w in
      match err with
      | Some err =>
          let w := ErrorWithTracing "Failed to delete subscriber" err
            [("subscriber_id", VString (uuid_String id));
             ("endpoint", VString "DELETE /subscribers/:id")] w in
          let span := RecordError span err in
          (mkResponse StatusNotFound (ErrorBody "Subscriber not found"), span_End span w)
      | None =>
          let w := InfoWithTracing "Successfully deleted subscriber"
            [("subscriber_id", VString (uuid_String id));
             ("endpoint", VString "DELETE /subscribers/:id")] w in
          let span := SetAttributes span
            [attribute_String "subscriber.id" (uuid_String id);
             attribute_Bool "success" true] in
          (mkResponse StatusNoContent NoBody, span_End span w)
      end
  end.

End Handler.
End SubscriberHandler.

(** The requests a client sends to the routes [app.Build] registers. *)
Inductive http_request :=
| POST (newID : UUID) (tNew tSet : Time) (bound : result CreateSubscriberRequest)
| LIST
| GET (tGet tSet : Time) (idParam : string)
| PUT (tNow tRepo : Time) (idParam : string) (bound : result CreateSubscriberRequest)
| DELETE (idParam : string).

(** The handler each route dispatches to. *)
Definition route `{Library} (repo : SubscriberRepository) (cache : Cache)
    (rq : http_request) : M Response :=
  match rq with
  | POST newID tNew tSet bound =>
      SubscriberHandler.CreateSubscriber repo cache newID tNew tSet bound
  | LIST => SubscriberHandler.GetAllSubscribers repo
  | GET tGet tSet idParam => SubscriberHandler.GetSubscriber repo cache tGet tSet idParam
  | PUT tNow tRepo idParam bound =>
      SubscriberHandler.UpdateSubscriber repo cache tNow tRepo idParam bound
  | DELETE idParam => SubscriberHandler.DeleteSubscriber repo cache idParam
  end.

(** What the request's body failed to bind with, if it did. *)
Definition binding_error (rq : http_request) : option error :=
  match rq with
  | POST _ _ _ (Err err) => Some err
  | PUT _ _ _ (Err err) => Some err
  | _ => None
  end.

(** The route parameter of a request that has one. *)
Definition id_param (rq : http_request) : option string :=
  match rq with
  | GET _ _ idParam => Some idParam
  | PUT _ _ idParam _ => Some idParam
  | DELETE idParam => Some idParam
  | _ => None
  end.

(** The answers the handlers give. *)
Inductive answer (rq : http_request) : Response -> Prop :=
| answer_created s : answer rq (mkResponse StatusCreated (SubscriberBody s))
| answer_subscriber s : answer rq (mkResponse StatusOK (SubscriberBody s))
| answer_subscribers l : answer rq (mkResponse StatusOK (SubscribersBody l))
| answer_deleted : answer rq (mkResponse StatusNoContent NoBody)
| answer_invalid_id :
    answer rq (mkResponse StatusBadRequest (ErrorBody "Invalid subscriber ID"))
| answer_invalid_payload err :
    binding_error rq = Some err ->
    answer rq (mkResponse StatusBadRequest (ErrorBody err))
| answer_not_found :
    answer rq (mkResponse StatusNotFound (ErrorBody "Subscriber not found"))
| answer_create_failed :
    answer rq (mkResponse StatusInternalServerError (ErrorBody "Failed to create subscriber"))
| answer_list_failed :
    answer rq (mkResponse StatusInternalServerError (ErrorBody "Failed to retrieve subscribers")).

(** The application's router: the routes over the in-memory repository and
    cache. *)
Definition router `{Library} : http_request -> M Response :=
  route NewInMemorySubscriberRepository NewInMemoryCache.

(** ** Further inputs of the examples *)

Module Cases.
Import Scenario.
#[local] Existing Instance Canonical.library.

(** The state in which Alice is stored and cached; her object is at
    location 1. *)
Definition stored : World := snd created.

Definition aliceObject : Subscriber := mkSubscriber id1 "a@x.com" "Alice" 0 0.

Definition bob : CreateSubscriberRequest :=
  mkCreateSubscriberRequest "b@x.com" "Bob".

(** The text of [id1]. *)
Definition text1 : string := "00000000-0000-0000-0000-000000000001".

(** A state store that holds nothing and refuses every write. *)
Definition readOnlyStore : DaprClient :=
  {| SaveState := fun _ _ _ w => (Some "read-only store", w);
     GetState := fun _ _ w => (Ok "", w);
     DeleteState := fun _ _ w => (Some "read-only store", w);
     json_Marshal := fun _ => Err "unsupported";
     json_Unmarshal := fun _ => Err "unsupported" |}.

End Cases.

(** * Properties *)

(** ** The span recorder *)

Section Recorder.
Import TestSpanRecorder.

Lemma attrs_loop_true operation attrs :
  attrs_loop operation attrs = true <->
  Exists (fun kv : KeyValue => fst kv = "operation" /\ AsString (snd kv) = operation) attrs.
Proof.
  induction attrs as [|[k v] rest IH]; simpl.
  - split; [discriminate | intros E; inversion E].
  - destruct (String.eqb k "operation") eqn:Ek;
      destruct (String.eqb (AsString v) operation) eqn:Ev; simpl.
    + apply String.eqb_eq in Ek, Ev. split; [intros _ | reflexivity].
      constructor. by simpl.
    + rewrite IH. apply String.eqb_neq in Ev.
      split; [by constructor 2 | ].
      intros E. inversion E as [? ? [_ Hv]|]; subst; simpl in *; [congruence | done].
    + rewrite IH. apply String.eqb_neq in Ek.
      split; [by constructor 2 | ].
      intros E. inversion E as [? ? [Hk _]|]; subst; simpl in *; [congruence | done].
    + rewrite IH. apply String.eqb_neq in Ek.
      split; [by constructor 2 | ].
      intros E. inversion E as [? ? [Hk _]|]; subst; simpl in *; [congruence | done].
Qed.

Lemma GetSpansByOperation_loop_filter operation spans result :
  GetSpansByOperation_loop operation spans result =
  result ++ filter (has_operation operation) spans.
Proof.
  revert result. induction spans as [|span rest IH]; intros result; simpl.
  - by rewrite app_nil_r.
  - destruct (attrs_loop operation (span_Attributes span)) eqn:E.
    + apply attrs_loop_true in E.
      rewrite IH, filter_cons_True by exact E. by rewrite <- app_assoc.
    + rewrite IH, filter_cons_False; [done | ].
      intros Hop. apply attrs_loop_true in Hop. congruence.
Qed.

Lemma GetSpansByOperation_filter (r : list Span) operation :
  GetSpansByOperation r operation = filter (has_operation operation) r.
Proof. unfold GetSpansByOperation. by rewrite GetSpansByOperation_loop_filter. Qed.

Lemma Count_ExportSpans (r : t) spans :
  Count (ExportSpans r spans) = (Count r + length spans)%nat.
Proof. unfold Count, ExportSpans. apply length_app. Qed.

Lemma Count_ExportAll (r : t) batches :
  Count (ExportAll r batches) = (Count r + length (concat batches))%nat.
Proof.
  unfold ExportAll. revert r.
  induction batches as [|b bs IH]; intros r; simpl.
  - lia.
  - rewrite IH, Count_ExportSpans, length_app. lia.
Qed.

(** C5. On the span recorder: [Clear] then [Count] gives 0; after [Clear]
    (or on a new recorder), recording batches that hold N spans in all
    makes [Count] give N; [GetSpansByOperation x] is exactly the recorded
    spans that have an attribute entry [operation == x], in recording
    order, and so is no longer than [Count]. *)
Theorem recorder_clear_count_query :
  (forall r : t, Count (Clear r) = 0%nat) /\
  (forall (r : t) batches,
      Count (ExportAll (Clear r) batches) = length (concat batches) /\
      Count (ExportAll NewTestSpanRecorder batches) = length (concat batches)) /\
  (forall (r : t) x,
      GetSpansByOperation r x = filter (has_operation x) (GetSpans r) /\
      sublist (GetSpansByOperation r x) (GetSpans r) /\
      (length (GetSpansByOperation r x) <= Count r)%nat).
Proof.
  split; [reflexivity | split].
  - intros r batches. by rewrite !Count_ExportAll.
  - intros r x. unfold GetSpans. rewrite GetSpansByOperation_filter.
    split; [reflexivity | split].
    + apply sublist_filter.
    + apply length_filter.
Qed.

End Recorder.

(** ** The TTL cache *)

Section CacheProperties.
Context `{Library}.
Import InMemoryCache.

Lemma emitted_one {A} (m : M A) (w : World) (s : Span) :
  recorder (snd (m w)) = recorder w ++ [s] -> emitted m w = [s].
Proof.
  intros E. unfold emitted, TestSpanRecorder.Count. rewrite E.
  by rewrite drop_app_length.
Qed.

Lemma emitted_none {A} (m : M A) (w : World) :
  recorder (snd (m w)) = recorder w -> emitted m w = [].
Proof.
  intros E. unfold emitted, TestSpanRecorder.Count. rewrite E.
  apply drop_all.
Qed.

Lemma emitted_one_such {A} (m : M A) (w : World) (P : Span -> Prop) :
  (exists s, recorder (snd (m w)) = recorder w ++ [s] /\ P s) ->
  exists s, emitted m w = [s] /\ P s.
Proof. intros [s [E HP]]. exists s. split; [by apply emitted_one | done]. Qed.

Lemma emitted_at_most_one_such {A} (m : M A) (w : World) (P : Span -> Prop) :
  recorder (snd (m w)) = recorder w \/
  (exists s, recorder (snd (m w)) = recorder w ++ [s] /\ P s) ->
  Forall P (emitted m w).
Proof.
  intros [E|[s [E HP]]].
  - rewrite emitted_none by done. constructor.
  - rewrite (emitted_one _ _ s) by done. by repeat constructor.
Qed.

(** What [Get] returns, read off the map and the clock. *)
Lemma Get_result now key w :
  fst (Get now key w) =
  match cache_items w !! key with
  | None => Err "key not found in cache"
  | Some item =>
      if Time_After now (expireAt item) then Err "key expired in cache"
      else Ok (subscriber item)
  end.
Proof.
  unfold Get. destruct (cache_items w !! key) as [item|]; [|done].
  by destruct (Time_After now (expireAt item)).
Qed.

(** The reaper removes what has expired and nothing else. *)
Lemma cleanup_tick_lookup now w key :
  cache_items (cleanup_tick now w) !! key =
  match cache_items w !! key with
  | Some item => if Time_After now (expireAt item) then None else Some item
  | None => None
  end.
Proof.
  unfold cleanup_tick; simpl.
  destruct (cache_items w !! key) as [item|] eqn:E.
  - destruct (Time_After now (expireAt item)) eqn:T.
    + apply map_lookup_filter_None. right. intros x Hx. simpl.
      rewrite E in Hx. injection Hx as <-. by rewrite T.
    + apply map_lookup_filter_Some. by split.
  - apply map_lookup_filter_None. by left.
Qed.

Lemma cleanup_lookup ticks w key :
  cache_items (cleanup ticks w) !! key =
  match cache_items w !! key with
  | Some item =>
      if existsb (fun now => Time_After now (expireAt item)) ticks then None
      else Some item
  | None => None
  end.
Proof.
  unfold cleanup. revert w.
  induction ticks as [|now rest IH]; intros w; simpl.
  - by destruct (cache_items w !! key).
  - rewrite IH, cleanup_tick_lookup.
    destruct (cache_items w !! key) as [item|]; [|done].
    by destruct (Time_After now (expireAt item)).
Qed.

Lemma Get_lookup now key w k :
  cache_items (snd (Get now key w)) !! k = cache_items w !! k.
Proof.
  unfold Get. destruct (cache_items w !! key) as [item|]; [|done].
  by destruct (Time_After now (expireAt item)).
Qed.

Lemma Set_lookup now key (value : loc) ttl w :
  cache_items (snd (Set' now key value ttl w)) !! key
    = Some (mkCacheItem value (Time_Add now ttl)).
Proof. unfold Set'; simpl. apply lookup_insert_eq. Qed.

(** C7. [Get] never modifies the cache: whatever the key, the instant and
    the state (the entry may be absent, live or expired), the map of
    entries after [Get] is the map before it; nor does [Get] touch the
    subscriber objects or the repository. *)
Theorem Get_leaves_cache_unchanged now key w :
  cache_items (snd (Get now key w)) = cache_items w /\
  heap (snd (Get now key w)) = heap w /\
  repo_subscribers (snd (Get now key w)) = repo_subscribers w.
Proof.
  unfold Get. destruct (cache_items w !! key) as [item|] eqn:E.
  - destruct (Time_After now (expireAt item)); simpl; by repeat split.
  - simpl. by repeat split.
Qed.

(** An expired entry survives [Get] and goes at the next wake of the reaper. *)
Lemma expired_entry_removed_by_reaper_only now key item w :
  cache_items w !! key = Some item ->
  Time_After now (expireAt item) = true ->
  cache_items (snd (Get now key w)) !! key = Some item /\
  cache_items (cleanup_tick now w) !! key = None.
Proof.
  intros E T. split.
  - by rewrite Get_lookup.
  - by rewrite cleanup_tick_lookup, E, T.
Qed.

(** C8. [Set] stores the entry [{value, now+ttl}] under the key, whatever
    was there before, leaves the entries of all other keys as they were,
    and returns a nil error. *)
Theorem Set_stores_entry now key (value : loc) ttl w :
  fst (Set' now key value ttl w) = None /\
  cache_items (snd (Set' now key value ttl w)) !! key
    = Some (mkCacheItem value (Time_Add now ttl)) /\
  delete key (cache_items (snd (Set' now key value ttl w)))
    = delete key (cache_items w) /\
  cache_items (snd (Set' now key value ttl w))
    = <[key := mkCacheItem value (Time_Add now ttl)]> (cache_items w).
Proof.
  unfold Set'; simpl. split; [done|]. split; [apply lookup_insert_eq|].
  split; [apply delete_insert_eq | done].
Qed.

Lemma Set_other_keys now key value ttl w k :
  k <> key ->
  cache_items (snd (Set' now key value ttl w)) !! k = cache_items w !! k.
Proof. intros Hk. unfold Set'; simpl. by apply lookup_insert_ne. Qed.

(** C9. [Delete] returns a nil error whether or not the key is present;
    afterwards the key has no entry and the other entries are as before;
    deleting the same key again leaves the cache as the first [Delete]
    left it. *)
Theorem Delete_idempotent_total key w :
  fst (Delete key w) = None /\
  cache_items (snd (Delete key w)) !! key = None /\
  cache_items (snd (Delete key w)) = delete key (cache_items w) /\
  fst (Delete key (snd (Delete key w))) = None /\
  cache_items (snd (Delete key (snd (Delete key w))))
    = cache_items (snd (Delete key w)).
Proof.
  unfold Delete; simpl.
  split; [done|]. split; [apply lookup_delete_eq|]. split; [done|].
  split; [done|]. apply delete_delete_eq.
Qed.

Lemma Delete_absent_key key w :
  cache_items w !! key = None ->
  cache_items (snd (Delete key w)) = cache_items w.
Proof. intros E. unfold Delete; simpl. by apply delete_id. Qed.

Lemma Delete_other_keys key w k :
  k <> key ->
  cache_items (snd (Delete key w)) !! k = cache_items w !! k.
Proof. intros Hk. unfold Delete; simpl. by apply lookup_delete_ne. Qed.

(** C3 (as the code has it). [Get] reports a missing or an expired entry by
    returning no value together with a non-nil error, ["key not found in
    cache"] or ["key expired in cache"]; it returns the value, with a nil
    error, exactly when the entry is present and the clock is not past its
    expiry. *)
Theorem Get_reports_not_found_as_error now key w :
  fst (Get now key w) =
    match cache_items w !! key with
    | None => Err "key not found in cache"
    | Some item =>
        if Time_After now (expireAt item) then Err "key expired in cache"
        else Ok (subscriber item)
    end /\
  (is_Ok (fst (Get now key w)) = false <->
   cache_items w !! key = None \/
   exists item, cache_items w !! key = Some item /\ (expireAt item < now)%Z).
Proof.
  split; [apply Get_result|]. rewrite Get_result. unfold Time_After.
  destruct (cache_items w !! key) as [item|]; simpl.
  - destruct (Z.ltb_spec (expireAt item) now); simpl.
    + split; [intros _; right; by exists item | done].
    + split; [done|]. intros [?|[item' [[= <-] ?]]]; [done | lia].
  - split; [by left | done].
Qed.

(** C2 (as the code has it). After [Set] with TTL [d] at instant [tset],
    with the reaper waking at any instants [ticks] up to the read, [Get]
    at [tset + t] finds the value when [t <= d]; when [d < t] it returns
    an error and the span says [cache.hit = false], with [cache.result]
    ["expired"] while the entry is still in the map and ["miss"] once a
    wake of the reaper after the expiry has removed it. *)
Theorem Get_after_Set_expiry key (value : loc) d tset t ticks w :
  Forall (fun s => (s <= tset + t)%Z) ticks ->
  let w1 := cleanup ticks (snd (Set' tset key value d w)) in
  let reaped := existsb (fun s => Time_After s (Time_Add tset d)) ticks in
  ((t <= d)%Z ->
     fst (Get (tset + t) key w1) = Ok value /\
     exists span, emitted (Get (tset + t) key) w1 = [span] /\
       attr_values "operation" span = [VString "cache.read"] /\
       attr_values "cache.hit" span = [VBool true] /\
       attr_values "cache.result" span = [VString "hit"]) /\
  ((d < t)%Z ->
     fst (Get (tset + t) key w1) =
       Err (if reaped then "key not found in cache" else "key expired in cache") /\
     exists span, emitted (Get (tset + t) key) w1 = [span] /\
       attr_values "operation" span = [VString "cache.read"] /\
       attr_values "cache.hit" span = [VBool false] /\
       attr_values "cache.result" span =
         [VString (if reaped then "miss" else "expired")]).
Proof.
  intros Hticks w1 reaped.
  assert (Hlook : cache_items w1 !! key =
                  if reaped then None
                  else Some (mkCacheItem value (Time_Add tset d))).
  { subst w1 reaped. rewrite cleanup_lookup.
    by rewrite Set_lookup. }
  split.
  - intros Htd.
    assert (Hr : reaped = false).
    { subst reaped. apply not_true_is_false. intros E.
      apply existsb_exists in E as [s [Hin Hs]].
      rewrite Forall_forall in Hticks. apply list_elem_of_In, Hticks in Hin.
      unfold Time_After, Time_Add in Hs. apply Z.ltb_lt in Hs. lia. }
    rewrite Hr in Hlook.
    assert (Hnot : Time_After (tset + t) (Time_Add tset d) = false).
    { unfold Time_After, Time_Add. apply Z.ltb_ge. lia. }
    split.
    + by rewrite Get_result, Hlook; simpl; rewrite Hnot.
    + eexists. split.
      * apply emitted_one. unfold Get. rewrite Hlook; simpl. rewrite Hnot.
        reflexivity.
      * by repeat split.
  - intros Hdt.
    assert (Hafter : Time_After (tset + t) (Time_Add tset d) = true).
    { unfold Time_After, Time_Add. apply Z.ltb_lt. lia. }
    destruct reaped.
    + split.
      * by rewrite Get_result, Hlook.
      * eexists. split.
        -- apply emitted_one. unfold Get. rewrite Hlook. reflexivity.
        -- by repeat split.
    + split.
      * by rewrite Get_result, Hlook; simpl; rewrite Hafter.
      * eexists. split.
        -- apply emitted_one. unfold Get. rewrite Hlook; simpl. rewrite Hafter.
           reflexivity.
        -- by repeat split.
Qed.

End CacheProperties.

(** ** The repositories *)

Section RepositoryProperties.
Context `{Library}.
Import InMemorySubscriberRepository.

Lemma Create_fails_iff subscriber w :
  is_Some (fst (Create subscriber w)) <->
  is_Some (repo_subscribers w !! ID (deref w subscriber)).
Proof.
  unfold Create. destruct (repo_subscribers w !! ID (deref w subscriber)); simpl.
  - split; eauto.
  - split; intros []; done.
Qed.

Lemma Update_fails_iff now subscriber w :
  is_Some (fst (Update now subscriber w)) <->
  repo_subscribers w !! ID (deref w subscriber) = None.
Proof.
  unfold Update. destruct (repo_subscribers w !! ID (deref w subscriber)); simpl.
  - split; [intros []; done | done].
  - split; eauto.
Qed.

Lemma Delete_fails_iff id w :
  is_Some (fst (Delete id w)) <->
  match uuid_Parse id with
  | Err _ => True
  | Ok parsedID => repo_subscribers w !! parsedID = None
  end.
Proof.
  unfold Delete. destruct (uuid_Parse id) as [parsedID|err]; simpl.
  - destruct (repo_subscribers w !! parsedID); simpl.
    + split; [intros []; done | done].
    + split; eauto.
  - split; eauto.
Qed.

(** C10. When [Create], [Update] or [Delete] of the in-memory repository
    returns an error, the map of subscribers is exactly what it was before
    the call, and so are the subscriber objects and the cache. *)
Theorem mutation_error_leaves_store (m : mutation) (w : World) (e : error) :
  fst (mutate m w) = Some e ->
  repo_subscribers (snd (mutate m w)) = repo_subscribers w /\
  heap (snd (mutate m w)) = heap w /\
  cache_items (snd (mutate m w)) = cache_items w.
Proof.
  destruct m as [subscriber|now subscriber|id]; simpl.
  - unfold Create.
    destruct (repo_subscribers w !! ID (deref w subscriber)); simpl; [done|].
    discriminate.
  - unfold Update.
    destruct (repo_subscribers w !! ID (deref w subscriber)); simpl; [|done].
    discriminate.
  - unfold Delete. destruct (uuid_Parse id) as [parsedID|err]; simpl; [|done].
    destruct (repo_subscribers w !! parsedID); simpl; [|done].
    discriminate.
Qed.

(** The spans of the in-memory cache carry one [operation] attribute:
    [cache.read] for [Get], [cache.write] for [Set], [Delete] and [Clear]. *)
Lemma InMemoryCache_spans_operation now key (value : loc) ttl w :
  (exists s, emitted (InMemoryCache.Get now key) w = [s] /\
             attr_values "operation" s = [VString "cache.read"]) /\
  (exists s, emitted (InMemoryCache.Set' now key value ttl) w = [s] /\
             attr_values "operation" s = [VString "cache.write"]) /\
  (exists s, emitted (InMemoryCache.Delete key) w = [s] /\
             attr_values "operation" s = [VString "cache.write"]) /\
  (exists s, emitted InMemoryCache.Clear w = [s] /\
             attr_values "operation" s = [VString "cache.write"]).
Proof.
  repeat split; apply emitted_one_such.
  - unfold InMemoryCache.Get.
    destruct (cache_items w !! key) as [item|];
      [destruct (Time_After now (expireAt item))|]; by eexists.
  - by eexists.
  - by eexists.
  - by eexists.
Qed.

(** The spans of the in-memory repository carry one [operation] attribute:
    [database.read] for [GetByID] and [GetAll], [database.write] for
    [Create], [Update] and [Delete]. [GetByID] and [Delete] open no span
    when the id does not parse; every other call opens one. *)
Lemma InMemorySubscriberRepository_spans_operation now (subscriber : loc) id w :
  (exists s, emitted (Create subscriber) w = [s] /\
             attr_values "operation" s = [VString "database.write"]) /\
  (exists s, emitted (Update now subscriber) w = [s] /\
             attr_values "operation" s = [VString "database.write"]) /\
  (exists s, emitted GetAll w = [s] /\
             attr_values "operation" s = [VString "database.read"]) /\
  Forall (fun s => attr_values "operation" s = [VString "database.read"])
         (emitted (GetByID id) w) /\
  Forall (fun s => attr_values "operation" s = [VString "database.write"])
         (emitted (Delete id) w) /\
  (is_Ok (uuid_Parse id) = true ->
   length (emitted (GetByID id) w) = 1%nat /\
   length (emitted (Delete id) w) = 1%nat).
Proof.
  split; [|split; [|split; [|split; [|split]]]].
  - apply emitted_one_such. unfold Create.
    destruct (repo_subscribers w !! ID (deref w subscriber)); by eexists.
  - apply emitted_one_such. unfold Update.
    destruct (repo_subscribers w !! ID (deref w subscriber)); by eexists.
  - apply emitted_one_such. by eexists.
  - apply emitted_at_most_one_such. unfold GetByID.
    destruct (uuid_Parse id) as [parsedID|err]; [right | by left].
    destruct (repo_subscribers w !! parsedID); by eexists.
  - apply emitted_at_most_one_such. unfold Delete.
    destruct (uuid_Parse id) as [parsedID|err]; [right | by left].
    destruct (repo_subscribers w !! parsedID); by eexists.
  - intros Hok. split.
    + assert (exists s, emitted (GetByID id) w = [s] /\ True) as [s [-> _]]; [|done].
      apply emitted_one_such. unfold GetByID.
      destruct (uuid_Parse id) as [parsedID|err]; [|done].
      destruct (repo_subscribers w !! parsedID); by eexists.
    + assert (exists s, emitted (Delete id) w = [s] /\ True) as [s [-> _]]; [|done].
      apply emitted_one_such. unfold Delete.
      destruct (uuid_Parse id) as [parsedID|err]; [|done].
      destruct (repo_subscribers w !! parsedID); by eexists.
Qed.

End RepositoryProperties.

Section DaprProperties.
Context `{Library} `{DaprClient}.
Variable storeName : string.
Import DaprSubscriberRepository.

(** C4 (where the code departs from it). Whatever the Dapr client does,
    the span that [DaprSubscriberRepository.Delete] opens is the last one
    recorded when it returns, and its one [operation] attribute is
    [database.delete]: it is found neither under [database.read] nor under
    [database.write]. *)
Theorem Dapr_Delete_span_operation id w :
  exists before span,
    recorder (snd (Delete storeName id w)) = before ++ [span] /\
    span_Name span = "subscriber.repository.delete" /\
    attr_values "operation" span = [VString "database.delete"] /\
    ~ has_operation "database.read" span /\
    ~ has_operation "database.write" span.
Proof.
  unfold Delete.
  destruct (GetByID storeName id w) as [existing w1].
  destruct existing as [p|err].
  - destruct (DeleteState storeName id w1) as [[err|] w2];
      (eexists _, _; split; [reflexivity|]; repeat split; try done;
       unfold has_operation; simpl; rewrite !Exists_cons, Exists_nil; simpl;
       intros HE; decompose [or and] HE; congruence).
  - eexists _, _; split; [reflexivity|]; repeat split; try done;
      unfold has_operation; simpl; rewrite !Exists_cons, Exists_nil; simpl;
      intros HE; decompose [or and] HE; congruence.
Qed.

End DaprProperties.

(** ** The read-through flow *)

Section FlowProperties.
Context `{Library}.
Import SubscriberService.

Ltac warned_here :=
  intros ce [= ->]; eexists _, _; cbn;
  split; [rewrite <- app_assoc; reflexivity | split; [cbn; tauto | reflexivity]].

Lemma Create_failure repo cache other newID tNew tSet req w :
  Create_failure_semantics repo cache other newID tNew tSet req w.
Proof.
  unfold Create_failure_semantics, CreateSubscriber. cbv zeta.
  destruct (NewSubscriber newID tNew _ _ _) as [p w1]; cbn [fst snd].
  destruct (repo_Create repo p w1) as [[e|] w2]; cbn [fst snd].
  - split; [by intros ? [= ->] | split; done].
  - split; [done|]. split.
    + intros _.
      destruct (cache_Set cache _ _ _ _ _) as [[ce'|] w3]; cbn [fst snd];
      (split; [done|]); [warned_here | done].
    + by repeat case_match.
Qed.

Lemma Get_failure repo cache other tGet tSet id w :
  Get_failure_semantics repo cache other tGet tSet id w.
Proof.
  unfold Get_failure_semantics, GetSubscriber. cbv zeta.
  destruct (cache_Get cache tGet _ _) as [[subscriber|miss] w1] eqn:EG; cbn [fst snd].
  - split; [by intros ? [= ->] | split; [done | split; [done|]]].
    intros ->. by rewrite EG.
  - split; [done|].
    destruct (repo_GetByID repo _ _) as [[subscriber|e] w2] eqn:EO; cbn [fst snd].
    + split; [done | split].
      * intros ? ? _ [= <-].
        destruct (cache_Set cache _ _ _ _ _) as [[ce'|] w3]; cbn [fst snd];
        (split; [done|]); [warned_here | done].
      * intros ->. rewrite EG, EO. by repeat case_match.
    + split; [|split; [done|]].
      * intros ? ? _ [= <-]. split; [done|]. intros ->. by rewrite EG, EO.
      * intros ->. by rewrite EG, EO.
Qed.

Lemma Update_failure repo cache other tNow tRepo id req w :
  Update_failure_semantics repo cache other tNow tRepo id req w.
Proof.
  unfold Update_failure_semantics, UpdateSubscriber. cbv zeta.
  destruct (repo_GetByID repo _ _) as [[existing|e] w1]; cbn [fst snd].
  - split; [done|].
    destruct (repo_Update repo _ _ _) as [[e|] w2] eqn:EU; cbn [fst snd].
    + split; [|split].
      * intros ? ? [= <-]. rewrite EU. by intros [= ->].
      * intros ? [= <-]. by rewrite EU.
      * done.
    + split; [|split].
      * intros ? ? [= <-]. by rewrite EU.
      * intros ? [= <-] _. rewrite EU; cbn [fst snd].
        destruct (cache_Delete cache _ _) as [[ce'|] w3]; cbn [fst snd];
          (split; [done|]); [warned_here | done].
      * by repeat case_match.
  - split; [by intros ? [= ->] | split; [done | split; done]].
Qed.

Lemma Delete_failure repo cache other id w :
  Delete_failure_semantics repo cache other id w.
Proof.
  unfold Delete_failure_semantics, DeleteSubscriber. cbv zeta.
  destruct (repo_Delete repo _ _) as [[e|] w1]; cbn [fst snd].
  - split; [by intros ? [= ->] | split; done].
  - split; [done|]. split; [|by repeat case_match].
    intros _.
    destruct (cache_Delete cache _ _) as [[ce'|] w2]; cbn [fst snd];
      (split; [done|]); [warned_here | done].
Qed.

(** C6. In [CreateSubscriber], [GetSubscriber], [UpdateSubscriber] and
    [DeleteSubscriber], for any repository and any cache: an error that the
    repository returns is what the operation returns, and the operation
    stops there (the state it leaves does not depend on how the cache
    populates or invalidates); when the repository succeeds, the operation
    returns the repository's answer whether the cache's [Set] or [Delete]
    fails or not, a failure leaving only a warning in the log. *)
Theorem origin_errors_abort_cache_errors_warn
    (repo : SubscriberRepository) (cache other : Cache)
    newID tNew tSet tGet tNow tRepo id req w :
  Create_failure_semantics repo cache other newID tNew tSet req w /\
  Get_failure_semantics repo cache other tGet tSet id w /\
  Update_failure_semantics repo cache other tNow tRepo id req w /\
  Delete_failure_semantics repo cache other id w.
Proof.
  split; [apply Create_failure | split; [apply Get_failure | split]].
  - apply Update_failure.
  - apply Delete_failure.
Qed.

End FlowProperties.

(** ** A create followed by two reads *)

Section ReadThrough.
Context `{Library}.

Lemma emitted_app {A} (m : M A) (w : World) (l : list Span) :
  recorder (snd (m w)) = recorder w ++ l -> emitted m w = l.
Proof.
  intros E. unfold emitted, TestSpanRecorder.Count. rewrite E.
  by rewrite drop_app_length.
Qed.

Lemma deref_new_object s w :
  deref (snd (new_object s w)) (fst (new_object s w)) = s.
Proof. unfold deref, new_object; simpl. by rewrite lookup_insert_eq. Qed.

Lemma Create_state newID tNew tSet req w p w1 :
  Application.CreateSubscriber newID tNew tSet req w = (Ok p, w1) ->
  cache_items w1 !! GenerateCacheKey newID
    = Some (mkCacheItem p (Time_Add tSet (5 * Minute))) /\
  repo_subscribers w1 !! newID = Some p /\
  repo_subscribers w !! newID = None.
Proof.
  unfold Application.CreateSubscriber, SubscriberService.CreateSubscriber,
    NewSubscriber, new_object; simpl.
  unfold InMemorySubscriberRepository.Create, InMemoryCache.Set', deref; simpl.
  rewrite !lookup_insert_eq; simpl.
  destruct (repo_subscribers w !! newID) eqn:E; simpl; [discriminate|].
  rewrite !lookup_insert_eq; simpl.
  intros [= <- <-]; simpl.
  by rewrite !lookup_insert_eq.
Qed.

Lemma GetSubscriber_hit tGet tSet id w item :
  cache_items w !! GenerateCacheKey id = Some item ->
  Time_After tGet (expireAt item) = false ->
  let r := Application.GetSubscriber tGet tSet id w in
  fst r = Ok (subscriber item) /\
  cache_items (snd r) = cache_items w /\
  repo_subscribers (snd r) = repo_subscribers w /\
  heap (snd r) = heap w /\
  exists s1 s2,
    emitted (Application.GetSubscriber tGet tSet id) w = [s1; s2] /\
    span_Name s1 = "cache.get" /\
    attr_values "operation" s1 = [VString "cache.read"] /\
    attr_values "cache.hit" s1 = [VBool true] /\
    span_Name s2 = "subscriber.service.get" /\
    attr_values "operation" s2 = [].
Proof.
  intros E T r.
  assert (Hr : exists s1 s2,
    fst r = Ok (subscriber item) /\
    recorder (snd r) = recorder w ++ [s1; s2] /\
    cache_items (snd r) = cache_items w /\
    repo_subscribers (snd r) = repo_subscribers w /\
    heap (snd r) = heap w /\
    span_Name s1 = "cache.get" /\
    attr_values "operation" s1 = [VString "cache.read"] /\
    attr_values "cache.hit" s1 = [VBool true] /\
    span_Name s2 = "subscriber.service.get" /\
    attr_values "operation" s2 = []).
  { subst r.
    unfold Application.GetSubscriber, SubscriberService.GetSubscriber; simpl.
    unfold InMemoryCache.Get; simpl. rewrite E, T; simpl.
    unfold TestSpanRecorder.ExportSpans.
    eexists _, _. rewrite <- app_assoc. simpl.
    repeat split; reflexivity. }
  destruct Hr as (s1 & s2 & Hr & Hrec & Hc & Hrp & Hh & Hs).
  split; [done|]. repeat (split; [done|]).
  exists s1, s2. split; [by apply emitted_app|]. done.
Qed.

Lemma GetSubscriber_repopulates tGet tSet id w p :
  cache_missed tGet (GenerateCacheKey id) w ->
  uuid_Parse (uuid_String id) = Ok id ->
  repo_subscribers w !! id = Some p ->
  let r := Application.GetSubscriber tGet tSet id w in
  fst r = Ok p /\
  cache_items (snd r) =
    <[GenerateCacheKey id := mkCacheItem p (Time_Add tSet (5 * Minute))]> (cache_items w) /\
  repo_subscribers (snd r) = repo_subscribers w.
Proof.
  intros Hmiss HP HR r. subst r. unfold cache_missed in Hmiss.
  unfold Application.GetSubscriber, SubscriberService.GetSubscriber; simpl.
  unfold InMemoryCache.Get, InMemorySubscriberRepository.GetByID; simpl.
  rewrite HP.
  destruct (cache_items w !! GenerateCacheKey id) as [item|];
    [rewrite Hmiss|]; simpl; rewrite HR; simpl; done.
Qed.

Lemma GetSubscriber_span_names tGet tSet id w :
  map span_Name (emitted (Application.GetSubscriber tGet tSet id) w)
  = spans_of_read tGet id w.
Proof.
  assert (exists l, recorder (snd (Application.GetSubscriber tGet tSet id w))
                    = recorder w ++ l /\ map span_Name l = spans_of_read tGet id w)
    as (l & Hl & <-).
  2: { by rewrite (emitted_app _ _ l). }
  unfold spans_of_read, spans_after_miss.
  unfold Application.GetSubscriber, SubscriberService.GetSubscriber; simpl.
  unfold InMemoryCache.Get, InMemorySubscriberRepository.GetByID; simpl.
  destruct (cache_items w !! GenerateCacheKey id) as [item|];
    [destruct (Time_After tGet (expireAt item))|]; simpl;
    try (destruct (uuid_Parse (uuid_String id)) as [parsedID|err]; simpl;
         [destruct (repo_subscribers w !! parsedID); simpl|]);
    unfold TestSpanRecorder.ExportSpans;
    eexists; (split; [rewrite <- ?app_assoc; simpl; reflexivity | reflexivity]).
Qed.

Lemma has_operation_attr_values x s :
  has_operation x s <->
  Exists (fun v => AsString v = x) (attr_values "operation" s).
Proof.
  unfold has_operation, attr_values.
  induction (span_Attributes s) as [|[k v] rest IH].
  - split; intros E; inversion E.
  - rewrite Exists_cons, IH, filter_cons. cbn [fst snd].
    destruct (decide (k = "operation")) as [->|Hk].
    + cbn [map snd]. rewrite Exists_cons. tauto.
    + tauto.
Qed.

(** C1 (as the code has it). A subscriber is created and then read twice.
    If the second read looks the cache up no later than five minutes after
    the entry was last populated (by the create, or by the first read when
    that one found the entry expired), it returns the subscriber, records no
    span with [operation == "database.read"], records a span with
    [operation == "cache.read"] and [cache.hit == true], and leaves the
    repository alone. And for any read: the spans it opens are the cache
    lookup, then, only when the lookup missed, the repository's [GetByID]
    followed by the cache's [Set] when the repository has the subscriber,
    then the service's own. *)
Theorem second_read_is_served_from_cache
    newID tNew tSet req t1 t1' t2 t2' w p w1 :
  Application.CreateSubscriber newID tNew tSet req w = (Ok p, w1) ->
  uuid_Parse (uuid_String newID) = Ok newID ->
  (t2 <= Time_Add (last_population tSet t1 t1') (5 * Minute))%Z ->
  let w2 := snd (Application.GetSubscriber t1 t1' newID w1) in
  let second := Application.GetSubscriber t2 t2' newID in
  fst (second w2) = Ok p /\
  TestSpanRecorder.GetSpansByOperation (emitted second w2) "database.read" = [] /\
  (exists s,
     In s (TestSpanRecorder.GetSpansByOperation (emitted second w2) "cache.read") /\
     attr_values "cache.hit" s = [VBool true]) /\
  repo_subscribers (snd (second w2)) = repo_subscribers w2 /\
  (forall tGet tSet' id w',
     map span_Name (emitted (Application.GetSubscriber tGet tSet' id) w')
     = spans_of_read tGet id w').
Proof.
  intros HC HP Ht w2 second.
  destruct (Create_state _ _ _ _ _ _ _ HC) as (Hcache & Hrepo & _).
  assert (Hentry : exists item,
            cache_items w2 !! GenerateCacheKey newID = Some item /\
            subscriber item = p /\ Time_After t2 (expireAt item) = false).
  { unfold last_population in Ht. subst w2.
    destruct (Time_After t1 (Time_Add tSet (5 * Minute))) eqn:T1.
    - destruct (GetSubscriber_repopulates t1 t1' newID w1 p) as (_ & -> & _);
        [unfold cache_missed; by rewrite Hcache | done | done |].
      eexists. rewrite lookup_insert_eq. split; [done|]. split; [done|].
      simpl. unfold Time_After. apply Z.ltb_ge. exact Ht.
    - destruct (GetSubscriber_hit t1 t1' newID w1 _ Hcache T1) as (_ & -> & _).
      eexists. split; [exact Hcache|]. split; [done|].
      simpl. unfold Time_After. apply Z.ltb_ge. exact Ht. }
  destruct Hentry as (item & Hitem & <- & Hlive).
  destruct (GetSubscriber_hit t2 t2' newID w2 item Hitem Hlive)
    as (Hres & _ & Hrp & _ & s1 & s2 & Hem & _ & Hop1 & Hhit & _ & Hop2).
  fold second in Hres, Hrp, Hem.
  split; [done|]. rewrite Hem, !GetSpansByOperation_filter.
  split; [|split; [|split; [done|]]].
  - assert (H1 : ~ has_operation "database.read" s1).
    { rewrite has_operation_attr_values, Hop1, Exists_cons, Exists_nil.
      simpl. intros [?|[]]. congruence. }
    assert (H2 : ~ has_operation "database.read" s2).
    { rewrite has_operation_attr_values, Hop2, Exists_nil. tauto. }
    rewrite filter_cons_False by exact H1.
    by rewrite filter_cons_False by exact H2.
  - exists s1. split; [|done].
    rewrite filter_cons_True; [by left|].
    rewrite has_operation_attr_values, Hop1. by constructor.
  - intros. apply GetSubscriber_span_names.
Qed.
End ReadThrough.

(** * Further properties of the code *)

(** ** The cache: [Clear], the reaper, and how the operations compose *)

Section CacheLaws.
Context `{Library}.
Import InMemoryCache.

(** X1. [Clear] returns a nil error and leaves the cache empty: whatever
    was stored, every later [Get], at any instant and for any key, reports
    ["key not found in cache"]; the span of [Clear] carries the number of
    entries that were dropped, and the subscriber objects and the
    repository are not touched. *)
Theorem Clear_empties_cache now key w :
  fst (Clear w) = None /\
  fst (Get now key (snd (Clear w))) = Err "key not found in cache" /\
  size (cache_items (snd (Clear w))) = 0%nat /\
  (exists s, emitted Clear w = [s] /\
     attr_values "items.cleared" s = [VInt (Z.of_nat (size (cache_items w)))]) /\
  heap (snd (Clear w)) = heap w /\
  repo_subscribers (snd (Clear w)) = repo_subscribers w.
Proof.
  split; [done|]. split.
  - rewrite Get_result. unfold Clear; simpl. by rewrite lookup_empty.
  - split; [unfold Clear; simpl; apply map_size_empty|].
    split; [|done].
    apply emitted_one_such. by eexists.
Qed.

(** X2. The reaper cannot be observed through the result of [Get]: with
    wakes of the reaper at any instants up to the read, [Get] returns a
    value after them exactly when it returns that value without them. *)
Theorem reaper_invisible_to_Get ticks now key w v :
  Forall (fun s => (s <= now)%Z) ticks ->
  fst (Get now key (cleanup ticks w)) = Ok v <-> fst (Get now key w) = Ok v.
Proof.
  intros Hticks. rewrite !Get_result, cleanup_lookup.
  destruct (cache_items w !! key) as [item|]; [|done].
  destruct (existsb (fun s => Time_After s (expireAt item)) ticks) eqn:E; [|done].
  apply existsb_exists in E as (s & Hin & Hs).
  rewrite Forall_forall in Hticks. apply list_elem_of_In, Hticks in Hin.
  unfold Time_After in *. apply Z.ltb_lt in Hs.
  destruct (Z.ltb_spec (expireAt item) now); [done | lia].
Qed.

Lemma cleanup_tick_Some now w key item :
  cache_items (cleanup_tick now w) !! key = Some item <->
  cache_items w !! key = Some item /\ (now <= expireAt item)%Z.
Proof.
  rewrite cleanup_tick_lookup. unfold Time_After.
  destruct (cache_items w !! key) as [item'|].
  - destruct (Z.ltb_spec (expireAt item') now).
    + split; [done|]. intros [[= ->] ?]. lia.
    + split; [intros [= ->]; split; [done | lia] | by intros [? _]].
  - split; [done | by intros [? _]].
Qed.

(** X3. One wake of the reaper at [now] keeps exactly the entries that
    [now] is not past, unchanged; waking again at the same instant changes
    nothing more; and the wake touches nothing but the cache. *)
Theorem cleanup_tick_keeps_live_entries now w :
  (forall key item,
     cache_items (cleanup_tick now w) !! key = Some item <->
     cache_items w !! key = Some item /\ (now <= expireAt item)%Z) /\
  cache_items (cleanup_tick now (cleanup_tick now w))
    = cache_items (cleanup_tick now w) /\
  heap (cleanup_tick now w) = heap w /\
  repo_subscribers (cleanup_tick now w) = repo_subscribers w /\
  recorder (cleanup_tick now w) = recorder w.
Proof.
  split; [apply cleanup_tick_Some|]. split; [|done].
  apply map_eq. intros key. apply option_eq. intros item.
  rewrite !cleanup_tick_Some. tauto.
Qed.

Lemma Get_depends_on_entry now key w w' :
  cache_items w' !! key = cache_items w !! key ->
  fst (Get now key w') = fst (Get now key w).
Proof. intros E. by rewrite !Get_result, E. Qed.

(** X4. Writing or deleting one key does not change what [Get] returns for
    any other key. *)
Theorem Get_unaffected_by_other_keys now tset key k (value : loc) ttl w :
  k <> key ->
  fst (Get now k (snd (Set' tset key value ttl w))) = fst (Get now k w) /\
  fst (Get now k (snd (Delete key w))) = fst (Get now k w).
Proof.
  intros Hk. split; apply Get_depends_on_entry.
  - by apply Set_other_keys.
  - by apply Delete_other_keys.
Qed.

(** X5. The last write wins: a [Set] makes any earlier [Set] or [Delete]
    of the same key irrelevant to the cache, a [Delete] makes any earlier
    [Set] of the key irrelevant, and after a [Set] followed by a [Delete]
    the key is reported missing at every instant. *)
Theorem last_write_wins t1 t2 now key (v1 v2 : loc) d1 d2 w :
  cache_items (snd (Set' t2 key v2 d2 (snd (Set' t1 key v1 d1 w))))
    = cache_items (snd (Set' t2 key v2 d2 w)) /\
  cache_items (snd (Set' t2 key v2 d2 (snd (Delete key w))))
    = cache_items (snd (Set' t2 key v2 d2 w)) /\
  cache_items (snd (Delete key (snd (Set' t1 key v1 d1 w))))
    = cache_items (snd (Delete key w)) /\
  fst (Get now key (snd (Delete key (snd (Set' t1 key v1 d1 w)))))
    = Err "key not found in cache".
Proof.
  split; [|split; [|split]].
  - unfold Set'; simpl. apply insert_insert_eq.
  - unfold Set', Delete; simpl. apply insert_delete_eq.
  - unfold Set', Delete; simpl. apply delete_insert_eq.
  - rewrite Get_result. unfold Set', Delete; simpl. by rewrite lookup_delete_eq.
Qed.

Lemma cache_key_inj (a b : UUID) :
  uuid_Parse (uuid_String a) = Ok a ->
  uuid_Parse (uuid_String b) = Ok b ->
  GenerateCacheKey a = GenerateCacheKey b -> a = b.
Proof.
  intros Ha Hb E. unfold GenerateCacheKey in E. simpl in E.
  assert (Hs : uuid_String a = uuid_String b) by (by simplify_eq).
  rewrite Hs in Ha. congruence.
Qed.

(** X6. Distinct subscribers get distinct cache keys, given that the text
    of each id parses back to the id. *)
Theorem GenerateCacheKey_injective (a b : UUID) :
  uuid_Parse (uuid_String a) = Ok a ->
  uuid_Parse (uuid_String b) = Ok b ->
  GenerateCacheKey a = GenerateCacheKey b <-> a = b.
Proof.
  intros Ha Hb. split.
  - by apply cache_key_inj.
  - by intros ->.
Qed.

End CacheLaws.

(** ** The in-memory repository *)

Section RepositoryLaws.
Context `{Library}.
Import InMemorySubscriberRepository.

Lemma Create_ok_state subscriber w :
  fst (Create subscriber w) = None ->
  repo_subscribers w !! ID (deref w subscriber) = None /\
  repo_subscribers (snd (Create subscriber w))
    = <[ID (deref w subscriber) := subscriber]> (repo_subscribers w) /\
  heap (snd (Create subscriber w)) = heap w /\
  cache_items (snd (Create subscriber w)) = cache_items w.
Proof.
  unfold Create.
  destruct (repo_subscribers w !! ID (deref w subscriber)); simpl; [discriminate|done].
Qed.

Lemma GetByID_result id w :
  fst (GetByID id w) =
  match uuid_Parse id with
  | Err err => Err ("invalid UUID format: " +:+ err)
  | Ok parsedID =>
      match repo_subscribers w !! parsedID with
      | Some subscriber => Ok subscriber
      | None => Err ("subscriber with ID " +:+ id +:+ " not found")
      end
  end.
Proof.
  unfold GetByID. destruct (uuid_Parse id) as [parsedID|err]; [|done].
  by destruct (repo_subscribers w !! parsedID).
Qed.

(** X7. What [Create] stores, [GetByID] finds: after a [Create] that
    returned nil, [GetByID] with the text of the subscriber's id returns the
    very pointer that was created (the text parsing back to the id), and
    records one span tagged [database.read]. *)
Theorem Create_then_GetByID subscriber w :
  fst (Create subscriber w) = None ->
  uuid_Parse (uuid_String (ID (deref w subscriber))) = Ok (ID (deref w subscriber)) ->
  fst (GetByID (uuid_String (ID (deref w subscriber))) (snd (Create subscriber w)))
    = Ok subscriber /\
  exists s,
    emitted (GetByID (uuid_String (ID (deref w subscriber)))) (snd (Create subscriber w)) = [s] /\
    attr_values "operation" s = [VString "database.read"] /\
    attr_values "success" s = [VBool true].
Proof.
  intros HC HP. destruct (Create_ok_state _ _ HC) as (_ & Hm & _).
  split.
  - by rewrite GetByID_result, HP, Hm, lookup_insert_eq.
  - apply emitted_one_such. unfold GetByID. rewrite HP, Hm, lookup_insert_eq.
    by eexists.
Qed.

(** X8. Ids are unique in the store: a [Create] that returned nil added
    exactly one binding, for an id that was not there, and any further
    [Create] of an object that carries that id, the same object included,
    fails with "already exists" and records the error on its span. *)
Theorem Create_rejects_duplicate_id subscriber (other : loc) w :
  fst (Create subscriber w) = None ->
  ID (deref w other) = ID (deref w subscriber) ->
  let w1 := snd (Create subscriber w) in
  repo_subscribers w !! ID (deref w subscriber) = None /\
  repo_subscribers w1 = <[ID (deref w subscriber) := subscriber]> (repo_subscribers w) /\
  fst (Create other w1)
    = Some ("subscriber with ID " +:+ uuid_String (ID (deref w subscriber))
            +:+ " already exists") /\
  exists s, emitted (Create other) w1 = [s] /\
            span_Errors s = ["subscriber already exists"].
Proof.
  intros HC HI w1. destruct (Create_ok_state _ _ HC) as (Hnone & Hm & Hh & _).
  fold w1 in Hm, Hh.
  assert (Hd : deref w1 other = deref w other) by (unfold deref; by rewrite Hh).
  split; [done|]. split; [done|].
  assert (Hl : repo_subscribers w1 !! ID (deref w1 other) = Some subscriber).
  { by rewrite Hd, HI, Hm, lookup_insert_eq. }
  split.
  - unfold Create. rewrite Hl; simpl. by rewrite Hd, HI.
  - apply emitted_one_such. unfold Create. rewrite Hl. by eexists.
Qed.

(** X9. [Delete] of the repository is not idempotent: after a [Delete]
    that returned nil, the id is gone from the store (and only that id),
    [GetByID] of the same text reports "not found", and so does a second
    [Delete]. *)
Theorem Delete_then_not_found id w :
  fst (Delete id w) = None ->
  let w1 := snd (Delete id w) in
  let notFound := "subscriber with ID " +:+ id +:+ " not found" in
  (exists parsedID, uuid_Parse id = Ok parsedID /\
     is_Some (repo_subscribers w !! parsedID) /\
     repo_subscribers w1 = delete parsedID (repo_subscribers w)) /\
  fst (GetByID id w1) = Err notFound /\
  fst (Delete id w1) = Some notFound /\
  heap w1 = heap w.
Proof.
  intros HD w1 notFound. subst w1. unfold Delete in *.
  destruct (uuid_Parse id) as [parsedID|err] eqn:HP; [|discriminate].
  destruct (repo_subscribers w !! parsedID) as [p|] eqn:HL; [|discriminate].
  simpl. split; [by exists parsedID|].
  split.
  - by rewrite GetByID_result, HP; simpl; rewrite lookup_delete_eq.
  - by rewrite lookup_delete_eq.
Qed.

(** X11. [GetAll] never fails and returns the stored pointers, each id's
    once: as many as the store has ids, a pointer being listed exactly when
    some id is bound to it; its span carries that count, and the store is
    left as it was. *)
Theorem GetAll_lists_the_store w :
  exists subscribers,
    fst (GetAll w) = Ok subscribers /\
    length subscribers = size (repo_subscribers w) /\
    (forall p, In p subscribers <-> exists id, repo_subscribers w !! id = Some p) /\
    (exists s, emitted GetAll w = [s] /\
       attr_values "subscriber.count" s = [VInt (Z.of_nat (size (repo_subscribers w)))]) /\
    repo_subscribers (snd (GetAll w)) = repo_subscribers w /\
    heap (snd (GetAll w)) = heap w.
Proof.
  eexists. split; [reflexivity|].
  assert (Hlen : length (map snd (map_to_list (repo_subscribers w)))
                 = size (repo_subscribers w)).
  { by rewrite length_map, length_map_to_list. }
  split; [exact Hlen|]. split; [|split; [|done]].
  - intros p. rewrite in_map_iff. split.
    + intros ([id q] & <- & Hin). exists id.
      by apply elem_of_map_to_list, list_elem_of_In.
    + intros (id & Hid). exists (id, p). split; [done|].
      by apply list_elem_of_In, elem_of_map_to_list.
  - apply emitted_one_such. eexists. split; [reflexivity|].
    unfold GetAll; simpl. by rewrite Hlen.
Qed.

Lemma Update_ok_state now subscriber w :
  fst (Update now subscriber w) = None ->
  is_Some (repo_subscribers w !! ID (deref w subscriber)) /\
  repo_subscribers (snd (Update now subscriber w))
    = <[ID (deref w subscriber) := subscriber]> (repo_subscribers w) /\
  heap (snd (Update now subscriber w))
    = <[subscriber :=
          mkSubscriber (ID (deref w subscriber)) (Email (deref w subscriber))
            (Name (deref w subscriber)) (CreatedAt (deref w subscriber)) now]> (heap w) /\
  cache_items (snd (Update now subscriber w)) = cache_items w.
Proof.
  unfold Update.
  destruct (repo_subscribers w !! ID (deref w subscriber)) eqn:E; simpl;
    [by eauto | discriminate].
Qed.

(** X12. When [Update] returns nil, the store binds the same ids as
    before, the id of the object is bound to the pointer that was passed,
    the object has its [UpdatedAt] set to the instant of the call and its
    other fields as they were, and every other object is untouched. *)
Theorem Update_stamps_and_stores now subscriber (q : loc) w :
  fst (Update now subscriber w) = None ->
  q <> subscriber ->
  let w1 := snd (Update now subscriber w) in
  let s := deref w subscriber in
  dom (repo_subscribers w1) = dom (repo_subscribers w) /\
  repo_subscribers w1 !! ID s = Some subscriber /\
  deref w1 subscriber = mkSubscriber (ID s) (Email s) (Name s) (CreatedAt s) now /\
  deref w1 q = deref w q.
Proof.
  intros HU Hq w1 s. destruct (Update_ok_state _ _ _ HU) as (Hin & Hm & Hh & _).
  fold w1 in Hm, Hh. fold s in Hin, Hm, Hh.
  split; [|split; [|split]].
  - rewrite Hm, dom_insert_L. apply subseteq_union_1_L, singleton_subseteq_l.
    by apply elem_of_dom.
  - by rewrite Hm, lookup_insert_eq.
  - unfold deref at 1. by rewrite Hh, lookup_insert_eq.
  - unfold deref. by rewrite Hh, lookup_insert_ne.
Qed.

(** X13. The store stays consistent: if every stored pointer points to an
    object that carries the id it is stored under, this is still so after
    any [Create], [Update] or [Delete] on an existing object, whether the
    call succeeds or fails. *)
Theorem mutation_keeps_store_consistent (m : mutation) (w : World) :
  store_consistent w ->
  call_on_object m w ->
  store_consistent (snd (mutate m w)).
Proof.
  intros Hinv Hobj. destruct m as [subscriber|now subscriber|id]; simpl in *.
  - unfold Create.
    destruct (repo_subscribers w !! ID (deref w subscriber)) eqn:E; simpl; [done|].
    intros id p. simpl. destruct (decide (id = ID (deref w subscriber))) as [->|Hne].
    + rewrite lookup_insert_eq. intros [= <-].
      destruct Hobj as [s Hs]. exists s. split; [done|].
      unfold deref. by rewrite Hs.
    + rewrite lookup_insert_ne by done. apply Hinv.
  - unfold Update.
    destruct (repo_subscribers w !! ID (deref w subscriber)) as [p0|] eqn:E; simpl; [|done].
    intros id p. simpl.
    destruct (decide (id = ID (deref w subscriber))) as [->|Hne].
    + rewrite lookup_insert_eq. intros [= <-].
      rewrite lookup_insert_eq. by eexists.
    + rewrite lookup_insert_ne by done. intros Hp.
      destruct (Hinv _ _ Hp) as (s & Hs & Hid).
      destruct (decide (p = subscriber)) as [->|Hps].
      * unfold deref in Hne. rewrite Hs in Hne. simpl in Hne. congruence.
      * exists s. by rewrite lookup_insert_ne.
  - unfold Delete. destruct (uuid_Parse id) as [parsedID|err]; [|done].
    destruct (repo_subscribers w !! parsedID) eqn:E; simpl; [|done].
    intros id' p. simpl. intros Hp.
    apply lookup_delete_Some in Hp as [_ Hp]. by apply Hinv.
Qed.

End RepositoryLaws.

(** ** The service over the in-memory repository and cache *)

Section ApplicationLaws.
Context `{Library}.

Lemma GetSubscriber_miss_found tGet tSet id w p :
  cache_missed tGet (GenerateCacheKey id) w ->
  uuid_Parse (uuid_String id) = Ok id ->
  repo_subscribers w !! id = Some p ->
  let r := Application.GetSubscriber tGet tSet id w in
  fst r = Ok p /\
  cache_items (snd r) =
    <[GenerateCacheKey id := mkCacheItem p (Time_Add tSet (5 * Minute))]> (cache_items w) /\
  repo_subscribers (snd r) = repo_subscribers w /\
  heap (snd r) = heap w /\
  exists l, emitted (Application.GetSubscriber tGet tSet id) w = l /\
    map span_Name l = ["cache.get"; "subscriber.repository.get_by_id";
                       "cache.set"; "subscriber.service.get"] /\
    map (attr_values "operation") l =
      [[VString "cache.read"]; [VString "database.read"]; [VString "cache.write"]; []] /\
    map (attr_values "cache.hit") l = [[VBool false]; []; []; [VBool false]] /\
    length (TestSpanRecorder.GetSpansByOperation l "database.read") = 1%nat.
Proof.
  intros Hmiss HP HR r.
  destruct (GetSubscriber_repopulates tGet tSet id w p Hmiss HP HR) as (H1 & H2 & H3).
  fold r in H1, H2, H3. repeat (split; [done|]).
  assert (exists l, recorder (snd r) = recorder w ++ l /\ heap (snd r) = heap w /\
    map span_Name l = ["cache.get"; "subscriber.repository.get_by_id";
                       "cache.set"; "subscriber.service.get"] /\
    map (attr_values "operation") l =
      [[VString "cache.read"]; [VString "database.read"]; [VString "cache.write"]; []] /\
    map (attr_values "cache.hit") l = [[VBool false]; []; []; [VBool false]] /\
    length (TestSpanRecorder.GetSpansByOperation l "database.read") = 1%nat)
    as (l & Hl & Hh & Hrest).
  { subst r. unfold cache_missed in Hmiss.
    unfold Application.GetSubscriber, SubscriberService.GetSubscriber; simpl.
    unfold InMemoryCache.Get, InMemorySubscriberRepository.GetByID; simpl.
    rewrite HP.
    destruct (cache_items w !! GenerateCacheKey id) as [item|];
      [rewrite Hmiss|]; simpl; rewrite HR; simpl;
      unfold TestSpanRecorder.ExportSpans;
      (eexists; split; [rewrite <- !app_assoc; simpl; reflexivity |]);
      repeat split. }
  split; [done|]. exists l. split; [by apply emitted_app | done].
Qed.

Lemma GetSubscriber_miss_absent tGet tSet id w :
  cache_missed tGet (GenerateCacheKey id) w ->
  uuid_Parse (uuid_String id) = Ok id ->
  repo_subscribers w !! id = None ->
  let r := Application.GetSubscriber tGet tSet id w in
  fst r = Err ("subscriber with ID " +:+ uuid_String id +:+ " not found") /\
  cache_items (snd r) = cache_items w /\
  repo_subscribers (snd r) = repo_subscribers w /\
  heap (snd r) = heap w /\
  exists l, emitted (Application.GetSubscriber tGet tSet id) w = l /\
    map span_Name l = ["cache.get"; "subscriber.repository.get_by_id";
                       "subscriber.service.get"] /\
    map (attr_values "operation") l =
      [[VString "cache.read"]; [VString "database.read"]; []] /\
    map span_Errors l =
      [[]; ["subscriber not found"];
       ["subscriber with ID " +:+ uuid_String id +:+ " not found"]].
Proof.
  intros Hmiss HP HR r.
  assert (exists l, recorder (snd r) = recorder w ++ l /\
    fst r = Err ("subscriber with ID " +:+ uuid_String id +:+ " not found") /\
    cache_items (snd r) = cache_items w /\
    repo_subscribers (snd r) = repo_subscribers w /\
    heap (snd r) = heap w /\
    map span_Name l = ["cache.get"; "subscriber.repository.get_by_id";
                       "subscriber.service.get"] /\
    map (attr_values "operation") l =
      [[VString "cache.read"]; [VString "database.read"]; []] /\
    map span_Errors l =
      [[]; ["subscriber not found"];
       ["subscriber with ID " +:+ uuid_String id +:+ " not found"]])
    as (l & Hl & Hres & Hc & Hr & Hh & Hrest).
  { subst r. unfold cache_missed in Hmiss.
    unfold Application.GetSubscriber, SubscriberService.GetSubscriber; simpl.
    unfold InMemoryCache.Get, InMemorySubscriberRepository.GetByID; simpl.
    rewrite HP.
    destruct (cache_items w !! GenerateCacheKey id) as [item|];
      [rewrite Hmiss|]; simpl; rewrite HR; simpl;
      unfold TestSpanRecorder.ExportSpans;
      (eexists; split; [rewrite <- !app_assoc; simpl; reflexivity |]);
      repeat split. }
  repeat (split; [done|]). exists l. split; [by apply emitted_app | done].
Qed.

(** X14. What [CreateSubscriber] does, by whether the new id is already in
    the store. If it is not: the call returns a pointer to a new object
    that holds the request's email and name, binds the id to it in the
    store, caches it for five minutes from the instant of the [Set], and
    records a [database.write] span, a [cache.write] span and its own, in
    that order. If it is: the call returns the repository's "already
    exists" error, and neither the store nor the cache changes; no
    [cache.write] span is recorded. *)
Theorem CreateSubscriber_outcome newID tNew tSet req w :
  let r := Application.CreateSubscriber newID tNew tSet req w in
  let p := fresh (dom (heap w)) in
  let l := emitted (Application.CreateSubscriber newID tNew tSet req) w in
  deref (snd r) p = mkSubscriber newID (req_Email req) (req_Name req) tNew tNew /\
  match repo_subscribers w !! newID with
  | None =>
      fst r = Ok p /\
      repo_subscribers (snd r) = <[newID := p]> (repo_subscribers w) /\
      cache_items (snd r) =
        <[GenerateCacheKey newID := mkCacheItem p (Time_Add tSet (5 * Minute))]>
          (cache_items w) /\
      map span_Name l = ["subscriber.repository.create"; "cache.set";
                         "subscriber.service.create"] /\
      map (attr_values "operation") l =
        [[VString "database.write"]; [VString "cache.write"]; []]
  | Some _ =>
      fst r = Err ("subscriber with ID " +:+ uuid_String newID +:+ " already exists") /\
      repo_subscribers (snd r) = repo_subscribers w /\
      cache_items (snd r) = cache_items w /\
      map span_Name l = ["subscriber.repository.create"; "subscriber.service.create"] /\
      map (attr_values "operation") l = [[VString "database.write"]; []] /\
      map span_Errors l =
        [["subscriber already exists"];
         ["subscriber with ID " +:+ uuid_String newID +:+ " already exists"]]
  end.
Proof.
  intros r p l.
  assert (exists l', recorder (snd r) = recorder w ++ l' /\
    deref (snd r) p = mkSubscriber newID (req_Email req) (req_Name req) tNew tNew /\
    match repo_subscribers w !! newID with
    | None =>
        fst r = Ok p /\
        repo_subscribers (snd r) = <[newID := p]> (repo_subscribers w) /\
        cache_items (snd r) =
          <[GenerateCacheKey newID := mkCacheItem p (Time_Add tSet (5 * Minute))]>
            (cache_items w) /\
        map span_Name l' = ["subscriber.repository.create"; "cache.set";
                           "subscriber.service.create"] /\
        map (attr_values "operation") l' =
          [[VString "database.write"]; [VString "cache.write"]; []]
    | Some _ =>
        fst r = Err ("subscriber with ID " +:+ uuid_String newID +:+ " already exists") /\
        repo_subscribers (snd r) = repo_subscribers w /\
        cache_items (snd r) = cache_items w /\
        map span_Name l' = ["subscriber.repository.create"; "subscriber.service.create"] /\
        map (attr_values "operation") l' = [[VString "database.write"]; []] /\
        map span_Errors l' =
          [["subscriber already exists"];
           ["subscriber with ID " +:+ uuid_String newID +:+ " already exists"]]
    end) as (l' & Hl & Hrest).
  { subst r p.
    unfold Application.CreateSubscriber, SubscriberService.CreateSubscriber,
      NewSubscriber, new_object; simpl.
    unfold InMemorySubscriberRepository.Create, InMemoryCache.Set', deref; simpl.
    rewrite !lookup_insert_eq; simpl.
    destruct (repo_subscribers w !! newID) eqn:E; simpl;
      rewrite ?lookup_insert_eq; simpl;
      unfold TestSpanRecorder.ExportSpans;
      (eexists; split; [rewrite <- ?app_assoc; simpl; reflexivity |]);
      rewrite ?lookup_insert_eq; repeat split. }
  subst l. rewrite (emitted_app _ _ l' Hl). exact Hrest.
Qed.

Lemma cleanup_frame ticks w :
  heap (InMemoryCache.cleanup ticks w) = heap w /\
  repo_subscribers (InMemoryCache.cleanup ticks w) = repo_subscribers w.
Proof.
  unfold InMemoryCache.cleanup. revert w.
  induction ticks as [|now rest IH]; intros w; simpl; [done|].
  destruct (IH (InMemoryCache.cleanup_tick now w)) as [-> ->]. done.
Qed.

Lemma Create_object newID tNew tSet req w p w1 :
  Application.CreateSubscriber newID tNew tSet req w = (Ok p, w1) ->
  heap w1 !! p = Some (mkSubscriber newID (req_Email req) (req_Name req) tNew tNew).
Proof.
  unfold Application.CreateSubscriber, SubscriberService.CreateSubscriber,
    NewSubscriber, new_object; simpl.
  unfold InMemorySubscriberRepository.Create, InMemoryCache.Set', deref; simpl.
  rewrite !lookup_insert_eq; simpl.
  destruct (repo_subscribers w !! newID) eqn:E; simpl; [discriminate|].
  intros [= <- <-]; simpl. by rewrite lookup_insert_eq.
Qed.

(** X15. Read your writes: once [CreateSubscriber] has returned a
    subscriber, a [GetSubscriber] of its id returns that same subscriber at
    any later instant, whether the cached entry is still live, has expired,
    or has been removed by the reaper, and the object still holds what was
    created. *)
Theorem read_your_writes newID tNew tSet req w p w1 ticks tGet tSet' :
  Application.CreateSubscriber newID tNew tSet req w = (Ok p, w1) ->
  uuid_Parse (uuid_String newID) = Ok newID ->
  let r := Application.GetSubscriber tGet tSet' newID (InMemoryCache.cleanup ticks w1) in
  fst r = Ok p /\
  deref (snd r) p = mkSubscriber newID (req_Email req) (req_Name req) tNew tNew.
Proof.
  intros HC HP r.
  destruct (Create_state _ _ _ _ _ _ _ HC) as (Hcache & Hrepo & _).
  pose proof (Create_object _ _ _ _ _ _ _ HC) as Hobj.
  set (w2 := InMemoryCache.cleanup ticks w1) in *.
  destruct (cleanup_frame ticks w1) as [Hh2 Hr2]. fold w2 in Hh2, Hr2.
  assert (Hlook : cache_items w2 !! GenerateCacheKey newID = None \/
                  cache_items w2 !! GenerateCacheKey newID
                    = Some (mkCacheItem p (Time_Add tSet (5 * Minute)))).
  { subst w2. rewrite cleanup_lookup, Hcache. case_match; auto. }
  assert (Hres : fst r = Ok p /\ heap (snd r) = heap w2).
  { destruct Hlook as [Hl|Hl].
    - destruct (GetSubscriber_miss_found tGet tSet' newID w2 p) as (? & _ & _ & ? & _);
        [unfold cache_missed; by rewrite Hl | done | by rewrite Hr2 | done].
    - destruct (Time_After tGet (Time_Add tSet (5 * Minute))) eqn:T.
      + destruct (GetSubscriber_miss_found tGet tSet' newID w2 p) as (? & _ & _ & ? & _);
          [unfold cache_missed; by rewrite Hl | done | by rewrite Hr2 | done].
      + destruct (GetSubscriber_hit tGet tSet' newID w2 _ Hl T) as (? & _ & _ & ? & _).
        done. }
  destruct Hres as [Hres Hh]. split; [done|].
  unfold deref. by rewrite Hh, Hh2, Hobj.
Qed.

(** X16. A cache miss after [Clear]: once a subscriber has been created and
    the cache cleared, the next [GetSubscriber] of its id returns the
    subscriber, records exactly one span tagged [database.read], and puts
    the subscriber back in the cache for five minutes. *)
Theorem read_after_Clear_reaches_origin newID tNew tSet req w p w1 tGet tSet' :
  Application.CreateSubscriber newID tNew tSet req w = (Ok p, w1) ->
  uuid_Parse (uuid_String newID) = Ok newID ->
  let w2 := snd (InMemoryCache.Clear w1) in
  let r := Application.GetSubscriber tGet tSet' newID w2 in
  fst r = Ok p /\
  length (TestSpanRecorder.GetSpansByOperation
            (emitted (Application.GetSubscriber tGet tSet' newID) w2) "database.read")
    = 1%nat /\
  cache_items (snd r) !! GenerateCacheKey newID
    = Some (mkCacheItem p (Time_Add tSet' (5 * Minute))).
Proof.
  intros HC HP w2 r.
  destruct (Create_state _ _ _ _ _ _ _ HC) as (_ & Hrepo & _).
  destruct (GetSubscriber_miss_found tGet tSet' newID w2 p)
    as (Hres & Hc & _ & _ & l & Hl & _ & _ & _ & Hn); [done | done | done |].
  fold r in Hres, Hc. split; [done|]. split; [by rewrite Hl|].
  by rewrite Hc, lookup_insert_eq.
Qed.

(** X17. A read of an id that neither the cache (as a live entry) nor the
    store holds returns the repository's "not found" error and caches
    nothing: the cache and the store are as before; the read records the
    cache lookup and a [database.read] span that carries the error, and no
    [cache.write] span. *)
Theorem read_of_unknown_id tGet tSet id w :
  cache_missed tGet (GenerateCacheKey id) w ->
  uuid_Parse (uuid_String id) = Ok id ->
  repo_subscribers w !! id = None ->
  let r := Application.GetSubscriber tGet tSet id w in
  let l := emitted (Application.GetSubscriber tGet tSet id) w in
  fst r = Err ("subscriber with ID " +:+ uuid_String id +:+ " not found") /\
  cache_items (snd r) = cache_items w /\
  repo_subscribers (snd r) = repo_subscribers w /\
  map (attr_values "operation") l =
    [[VString "cache.read"]; [VString "database.read"]; []] /\
  TestSpanRecorder.GetSpansByOperation l "cache.write" = [].
Proof.
  intros Hmiss HP HR r l.
  destruct (GetSubscriber_miss_absent tGet tSet id w Hmiss HP HR)
    as (H1 & H2 & H3 & _ & l' & Hl & _ & Hops & _).
  fold r in H1, H2, H3. fold l in Hl. subst l'.
  repeat (split; [done|]).
  rewrite GetSpansByOperation_filter.
  destruct l as [|s1 [|s2 [|s3 [|]]]]; try discriminate.
  injection Hops as Ho1 Ho2 Ho3.
  rewrite !filter_cons, filter_nil.
  repeat case_decide; try done;
    match goal with
    | Hop : has_operation _ _ |- _ =>
        apply has_operation_attr_values in Hop;
        rewrite ?Ho1, ?Ho2, ?Ho3 in Hop
    end;
    repeat match goal with
    | Hop : Exists _ (_ :: _) |- _ => apply Exists_cons in Hop as [Hop|Hop]
    | Hop : Exists _ [] |- _ => by apply Exists_nil in Hop
    end; by simpl in *.
Qed.

Lemma UpdateSubscriber_ok tNow tRepo id req w p s :
  uuid_Parse (uuid_String id) = Ok id ->
  repo_subscribers w !! id = Some p ->
  heap w !! p = Some s ->
  ID s = id ->
  let r := Application.UpdateSubscriber tNow tRepo id req w in
  exists l, recorder (snd r) = recorder w ++ l /\
    fst r = Ok p /\
    heap (snd r) =
      <[p := mkSubscriber id (req_Email req) (req_Name req) (CreatedAt s) tRepo]> (heap w) /\
    repo_subscribers (snd r) = repo_subscribers w /\
    cache_items (snd r) = delete (GenerateCacheKey id) (cache_items w) /\
    map span_Name l =
      ["subscriber.repository.get_by_id"; "subscriber.repository.update";
       "cache.delete"; "subscriber.service.update"] /\
    map (attr_values "operation") l =
      [[VString "database.read"]; [VString "database.write"];
       [VString "cache.write"]; []].
Proof.
  intros HP HR Hs HI r. subst r.
  unfold Application.UpdateSubscriber, SubscriberService.UpdateSubscriber; simpl.
  unfold InMemorySubscriberRepository.GetByID; simpl. rewrite HP, HR; simpl.
  unfold InMemorySubscriberRepository.Update, assign, deref; simpl.
  rewrite Hs; simpl. rewrite !lookup_insert_eq; simpl. rewrite HI, HR; simpl.
  unfold TestSpanRecorder.ExportSpans.
  eexists. split; [rewrite <- !app_assoc; simpl; reflexivity|].
  split; [done|]. split; [apply insert_insert_eq|].
  split; [by apply insert_id|]. by repeat split.
Qed.

Lemma UpdateSubscriber_absent tNow tRepo id req w :
  uuid_Parse (uuid_String id) = Ok id ->
  repo_subscribers w !! id = None ->
  let r := Application.UpdateSubscriber tNow tRepo id req w in
  exists l, recorder (snd r) = recorder w ++ l /\
    fst r = Err ("subscriber with ID " +:+ uuid_String id +:+ " not found") /\
    heap (snd r) = heap w /\
    repo_subscribers (snd r) = repo_subscribers w /\
    cache_items (snd r) = cache_items w /\
    map (attr_values "operation") l = [[VString "database.read"]; []].
Proof.
  intros HP HR r. subst r.
  unfold Application.UpdateSubscriber, SubscriberService.UpdateSubscriber; simpl.
  unfold InMemorySubscriberRepository.GetByID; simpl. rewrite HP, HR; simpl.
  unfold TestSpanRecorder.ExportSpans.
  eexists. split; [rewrite <- !app_assoc; simpl; reflexivity|]. by repeat split.
Qed.

Lemma DeleteSubscriber_ok id w p :
  uuid_Parse (uuid_String id) = Ok id ->
  repo_subscribers w !! id = Some p ->
  let r := Application.DeleteSubscriber id w in
  exists l, recorder (snd r) = recorder w ++ l /\
    fst r = None /\
    heap (snd r) = heap w /\
    repo_subscribers (snd r) = delete id (repo_subscribers w) /\
    cache_items (snd r) = delete (GenerateCacheKey id) (cache_items w) /\
    map span_Name l =
      ["subscriber.repository.delete"; "cache.delete"; "subscriber.service.delete"] /\
    map (attr_values "operation") l =
      [[VString "database.write"]; [VString "cache.write"]; []].
Proof.
  intros HP HR r. subst r.
  unfold Application.DeleteSubscriber, SubscriberService.DeleteSubscriber; simpl.
  unfold InMemorySubscriberRepository.Delete; simpl. rewrite HP, HR; simpl.
  unfold TestSpanRecorder.ExportSpans.
  eexists. split; [rewrite <- !app_assoc; simpl; reflexivity|]. by repeat split.
Qed.

Lemma DeleteSubscriber_absent id w :
  uuid_Parse (uuid_String id) = Ok id ->
  repo_subscribers w !! id = None ->
  let r := Application.DeleteSubscriber id w in
  exists l, recorder (snd r) = recorder w ++ l /\
    fst r = Some ("subscriber with ID " +:+ uuid_String id +:+ " not found") /\
    heap (snd r) = heap w /\
    repo_subscribers (snd r) = repo_subscribers w /\
    cache_items (snd r) = cache_items w /\
    map (attr_values "operation") l = [[VString "database.write"]; []].
Proof.
  intros HP HR r. subst r.
  unfold Application.DeleteSubscriber, SubscriberService.DeleteSubscriber; simpl.
  unfold InMemorySubscriberRepository.Delete; simpl. rewrite HP, HR; simpl.
  unfold TestSpanRecorder.ExportSpans.
  eexists. split; [rewrite <- !app_assoc; simpl; reflexivity|]. by repeat split.
Qed.

(** X18. [UpdateSubscriber] of a stored subscriber returns the stored
    pointer, whose object now holds the request's email and name, keeps its
    id and creation instant, and has [UpdatedAt] set by the repository's
    clock reading (which overwrites the service's); the store binds the
    same ids as before, and the cache entry of the id is gone, so that the
    next read, at any instant, goes to the repository (one [database.read]
    span) and returns that same pointer. *)
Theorem update_invalidates_cache tNow tRepo id req w p s tGet tSet :
  uuid_Parse (uuid_String id) = Ok id ->
  repo_subscribers w !! id = Some p ->
  heap w !! p = Some s ->
  ID s = id ->
  let r := Application.UpdateSubscriber tNow tRepo id req w in
  let next := Application.GetSubscriber tGet tSet id in
  fst r = Ok p /\
  deref (snd r) p = mkSubscriber id (req_Email req) (req_Name req) (CreatedAt s) tRepo /\
  repo_subscribers (snd r) = repo_subscribers w /\
  cache_items (snd r) !! GenerateCacheKey id = None /\
  fst (next (snd r)) = Ok p /\
  length (TestSpanRecorder.GetSpansByOperation (emitted next (snd r)) "database.read")
    = 1%nat.
Proof.
  intros HP HR Hs HI r next.
  destruct (UpdateSubscriber_ok tNow tRepo id req w p s HP HR Hs HI)
    as (l & _ & Hres & Hh & Hrp & Hc & _).
  fold r in Hres, Hh, Hrp, Hc.
  assert (Hnone : cache_items (snd r) !! GenerateCacheKey id = None)
    by (by rewrite Hc, lookup_delete_eq).
  split; [done|]. split; [unfold deref; by rewrite Hh, lookup_insert_eq|].
  split; [done|]. split; [done|].
  destruct (GetSubscriber_miss_found tGet tSet id (snd r) p)
    as (Hn & _ & _ & _ & l' & Hl' & _ & _ & _ & Hcount);
    [unfold cache_missed; by rewrite Hnone | done | by rewrite Hrp |].
  subst next. by rewrite Hl'.
Qed.

(** X19. [DeleteSubscriber] of a stored subscriber returns nil and removes
    the id from the store and its entry from the cache; the next
    [GetSubscriber] of the id, at any instant, returns "not found", and so
    does a second [DeleteSubscriber]. *)
Theorem delete_forgets_subscriber id w p tGet tSet :
  uuid_Parse (uuid_String id) = Ok id ->
  repo_subscribers w !! id = Some p ->
  let r := Application.DeleteSubscriber id w in
  let notFound := "subscriber with ID " +:+ uuid_String id +:+ " not found" in
  fst r = None /\
  repo_subscribers (snd r) !! id = None /\
  cache_items (snd r) !! GenerateCacheKey id = None /\
  fst (Application.GetSubscriber tGet tSet id (snd r)) = Err notFound /\
  fst (Application.DeleteSubscriber id (snd r)) = Some notFound.
Proof.
  intros HP HR r notFound.
  destruct (DeleteSubscriber_ok id w p HP HR) as (l & _ & Hres & _ & Hrp & Hc & _).
  fold r in Hres, Hrp, Hc.
  assert (Hr0 : repo_subscribers (snd r) !! id = None)
    by (by rewrite Hrp, lookup_delete_eq).
  assert (Hc0 : cache_items (snd r) !! GenerateCacheKey id = None)
    by (by rewrite Hc, lookup_delete_eq).
  repeat (split; [done|]). split.
  - destruct (GetSubscriber_miss_absent tGet tSet id (snd r)) as (? & _);
      [unfold cache_missed; by rewrite Hc0 | done | done | done].
  - by destruct (DeleteSubscriber_absent id (snd r) HP Hr0) as (? & _ & ? & _).
Qed.

(** X20. [UpdateSubscriber] and [DeleteSubscriber] of an id the store does
    not hold return the repository's "not found" error and change neither
    the subscriber objects, nor the store, nor the cache: an entry the
    cache may hold for the id is not invalidated, and no [cache.write] span
    is recorded. *)
Theorem unknown_id_changes_nothing tNow tRepo id req w :
  uuid_Parse (uuid_String id) = Ok id ->
  repo_subscribers w !! id = None ->
  let u := Application.UpdateSubscriber tNow tRepo id req w in
  let d := Application.DeleteSubscriber id w in
  let notFound := "subscriber with ID " +:+ uuid_String id +:+ " not found" in
  (fst u = Err notFound /\ heap (snd u) = heap w /\
   repo_subscribers (snd u) = repo_subscribers w /\
   cache_items (snd u) = cache_items w /\
   map (attr_values "operation")
       (emitted (Application.UpdateSubscriber tNow tRepo id req) w)
     = [[VString "database.read"]; []]) /\
  (fst d = Some notFound /\ heap (snd d) = heap w /\
   repo_subscribers (snd d) = repo_subscribers w /\
   cache_items (snd d) = cache_items w /\
   map (attr_values "operation") (emitted (Application.DeleteSubscriber id) w)
     = [[VString "database.write"]; []]).
Proof.
  intros HP HR u d notFound. split.
  - destruct (UpdateSubscriber_absent tNow tRepo id req w HP HR)
      as (l & Hl & ? & ? & ? & ? & ?).
    repeat (split; [done|]). by rewrite (emitted_app _ _ l Hl).
  - destruct (DeleteSubscriber_absent id w HP HR) as (l & Hl & ? & ? & ? & ? & ?).
    repeat (split; [done|]). by rewrite (emitted_app _ _ l Hl).
Qed.




Lemma read_coherent tGet tSet id w :
  uuid_Parse (uuid_String id) = Ok id ->
  coherent id w ->
  let r := Application.GetSubscriber tGet tSet id w in
  heap (snd r) = heap w /\
  fst r = match repo_subscribers w !! id with
          | Some p => Ok p
          | None => Err ("subscriber with ID " +:+ uuid_String id +:+ " not found")
          end.
Proof.
  intros HP Hcoh r.
  assert (Hmiss : cache_missed tGet (GenerateCacheKey id) w ->
    heap (snd r) = heap w /\
    fst r = match repo_subscribers w !! id with
            | Some p => Ok p
            | None => Err ("subscriber with ID " +:+ uuid_String id +:+ " not found")
            end).
  { intros Hm. destruct (repo_subscribers w !! id) as [p|] eqn:HR.
    - by destruct (GetSubscriber_miss_found tGet tSet id w p Hm HP HR) as (? & _ & _ & ? & _).
    - by destruct (GetSubscriber_miss_absent tGet tSet id w Hm HP HR) as (? & _ & _ & ? & _). }
  destruct (cache_items w !! GenerateCacheKey id) as [item|] eqn:E.
  - destruct (Time_After tGet (expireAt item)) eqn:T.
    + apply Hmiss. unfold cache_missed. by rewrite E.
    + destruct (GetSubscriber_hit tGet tSet id w item E T) as (? & _ & _ & ? & _).
      by rewrite (Hcoh item E).
  - apply Hmiss. unfold cache_missed. by rewrite E.
Qed.

(** X26. The cache is transparent: in a state where the cache agrees with
    the store about a subscriber, [GetSubscriber] returns, at any instant,
    exactly what the store holds for the id, the stored pointer or the
    "not found" error, whether the answer comes from the cache or from the
    repository; and it leaves the subscriber objects as they are. *)
Theorem cache_is_transparent tGet tSet id w :
  uuid_Parse (uuid_String id) = Ok id ->
  coherent id w ->
  let r := Application.GetSubscriber tGet tSet id w in
  fst r = fst (InMemorySubscriberRepository.GetByID (uuid_String id) w) /\
  heap (snd r) = heap w.
Proof.
  intros HP Hcoh r. destruct (read_coherent tGet tSet id w HP Hcoh) as [Hh Hres].
  fold r in Hh, Hres. split; [|done].
  rewrite Hres, GetByID_result, HP. by destruct (repo_subscribers w !! id).
Qed.

End ApplicationLaws.

(** ** The span recorder: queries and exports *)

Section RecorderLaws.
Import TestSpanRecorder.

Lemma GetSpansByName_loop_filter name spans result :
  GetSpansByName_loop name spans result =
  result ++ filter (fun s => span_Name s = name) spans.
Proof.
  revert result. induction spans as [|span rest IH]; intros result; simpl.
  - by rewrite app_nil_r.
  - rewrite filter_cons. destruct (String.eqb_spec (span_Name span) name) as [E|E].
    + rewrite IH, decide_True by done. by rewrite <- app_assoc.
    + by rewrite IH, decide_False.
Qed.

Lemma GetSpansByName_filter (r : list Span) name :
  GetSpansByName r name = filter (fun s => span_Name s = name) r.
Proof. unfold GetSpansByName. by rewrite GetSpansByName_loop_filter. Qed.

(** X22. [GetSpansByName] returns exactly the recorded spans whose name is
    the argument, in recording order: a span is in the result as many
    times as it was recorded under that name, every span of the result has
    that name, and the result is no longer than [Count]. *)
Theorem GetSpansByName_selects_by_name (r : t) name :
  GetSpansByName r name = filter (fun s => span_Name s = name) (GetSpans r) /\
  Forall (fun s => span_Name s = name) (GetSpansByName r name) /\
  sublist (GetSpansByName r name) (GetSpans r) /\
  (length (GetSpansByName r name) <= Count r)%nat.
Proof.
  unfold GetSpans. rewrite GetSpansByName_filter.
  split; [done|]. split; [|split].
  - apply Forall_forall. intros s Hs. by apply list_elem_of_filter in Hs as [? _].
  - apply sublist_filter.
  - apply length_filter.
Qed.

(** X23. Exporting a batch appends to what the queries return: after
    [ExportSpans], [GetSpans], [GetSpansByOperation] and [GetSpansByName]
    give what they gave before followed by the matching spans of the batch,
    so that results obtained earlier stay a prefix of later ones; and after
    [Clear] the queries see only the batches exported since. *)
Theorem queries_after_export (r : t) (batch : list Span) batches x :
  GetSpans (ExportSpans r batch) = GetSpans r ++ batch /\
  GetSpansByOperation (ExportSpans r batch) x
    = GetSpansByOperation r x ++ GetSpansByOperation batch x /\
  GetSpansByName (ExportSpans r batch) x
    = GetSpansByName r x ++ GetSpansByName batch x /\
  GetSpans (ExportAll (Clear r) batches) = concat batches /\
  GetSpansByOperation (ExportAll (Clear r) batches) x
    = GetSpansByOperation (concat batches) x.
Proof.
  assert (Hall : forall (r0 : list Span), ExportAll r0 batches = r0 ++ concat batches).
  { unfold ExportAll, ExportSpans. induction batches as [|b bs IH]; intros r0; simpl.
    - by rewrite app_nil_r.
    - by rewrite IH, app_assoc. }
  unfold GetSpans, ExportSpans.
  split; [done|]. split; [|split; [|split]].
  - by rewrite !GetSpansByOperation_filter, filter_app.
  - by rewrite !GetSpansByName_filter, filter_app.
  - by rewrite Hall.
  - by rewrite Hall.
Qed.

End RecorderLaws.

(** ** The HTTP handlers *)

Section HandlerLaws.
Context `{Library}.

(** X24. A route parameter that is not a uuid is refused before anything
    is looked up: [GetSubscriber], [UpdateSubscriber] and
    [DeleteSubscriber] answer 400 "Invalid subscriber ID", whatever the
    body, and the run does not depend on the repository or the cache at
    all; the subscriber objects, the store and the cache are untouched and
    the only span recorded is the handler's, with the parse error on it. *)
Theorem invalid_id_refused_before_any_access
    (repo repo' : SubscriberRepository) (cache cache' : Cache)
    (rq : http_request) idParam err w :
  id_param rq = Some idParam ->
  uuid_Parse idParam = Err err ->
  let r := route repo cache rq w in
  fst r = mkResponse StatusBadRequest (ErrorBody "Invalid subscriber ID") /\
  r = route repo' cache' rq w /\
  heap (snd r) = heap w /\
  repo_subscribers (snd r) = repo_subscribers w /\
  cache_items (snd r) = cache_items w /\
  exists s, emitted (route repo cache rq) w = [s] /\
    span_Errors s = [err] /\ attr_values "operation" s = [].
Proof.
  intros Hid HP r.
  assert (Hr : fst r = mkResponse StatusBadRequest (ErrorBody "Invalid subscriber ID") /\
    r = route repo' cache' rq w /\
    heap (snd r) = heap w /\
    repo_subscribers (snd r) = repo_subscribers w /\
    cache_items (snd r) = cache_items w /\
    exists s, recorder (snd r) = recorder w ++ [s] /\
      span_Errors s = [err] /\ attr_values "operation" s = []).
  { subst r. destruct rq as [? ? ? ?| |? ? ?|? ? ? ?|?]; simpl in Hid; try discriminate;
      injection Hid as ->; simpl;
      unfold SubscriberHandler.GetSubscriber, SubscriberHandler.UpdateSubscriber,
        SubscriberHandler.DeleteSubscriber; rewrite HP; simpl;
      (repeat (split; [done|])); by eexists. }
  destruct Hr as (? & ? & ? & ? & ? & s & Hs & ?).
  repeat (split; [done|]). exists s. split; [by apply emitted_one | done].
Qed.

(** X25. The handlers answer from a fixed list, for any repository and any
    cache: a subscriber or a list of subscribers with 200 or 201, nothing
    with 204, or an error body whose message is one of four fixed texts or
    the text of the request's own binding error: whatever error the
    service returned, the client is sent one of the fixed texts. *)
Theorem handlers_answer_from_fixed_list
    (repo : SubscriberRepository) (cache : Cache) (rq : http_request) w :
  answer rq (fst (route repo cache rq w)).
Proof.
  destruct rq as [newID tNew tSet bound| |tGet tSet idParam
                 |tNow tRepo idParam bound|idParam]; simpl.
  - unfold SubscriberHandler.CreateSubscriber. destruct bound as [req|err].
    + destruct (SubscriberService.CreateSubscriber _ _ _ _ _ _ _) as [[p|e] w1];
        simpl; constructor.
    + simpl. by constructor.
  - unfold SubscriberHandler.GetAllSubscribers.
    destruct (SubscriberService.GetAllSubscribers _ _) as [[l|e] w1]; simpl; constructor.
  - unfold SubscriberHandler.GetSubscriber.
    destruct (uuid_Parse idParam) as [id|err]; [|simpl; constructor].
    destruct (SubscriberService.GetSubscriber _ _ _ _ _ _) as [[p|e] w1];
      simpl; constructor.
  - unfold SubscriberHandler.UpdateSubscriber.
    destruct (uuid_Parse idParam) as [id|err]; [|simpl; constructor].
    destruct bound as [req|err]; [|simpl; by constructor].
    destruct (SubscriberService.UpdateSubscriber _ _ _ _ _ _ _) as [[p|e] w1];
      simpl; constructor.
  - unfold SubscriberHandler.DeleteSubscriber.
    destruct (uuid_Parse idParam) as [id|err]; [|simpl; constructor].
    destruct (SubscriberService.DeleteSubscriber _ _ _ _) as [[e|] w1];
      simpl; constructor.
Qed.

Lemma CreateSubscriber_fresh newID tNew tSet req w :
  repo_subscribers w !! newID = None ->
  exists p w1,
    Application.CreateSubscriber newID tNew tSet req w = (Ok p, w1) /\
    heap w1 !! p = Some (mkSubscriber newID (req_Email req) (req_Name req) tNew tNew) /\
    repo_subscribers w1 !! newID = Some p /\
    coherent newID w1.
Proof.
  intros HR.
  destruct (Application.CreateSubscriber newID tNew tSet req w) as [res w1] eqn:HC.
  assert (Hres : exists p, res = Ok p).
  { revert HC.
    unfold Application.CreateSubscriber, SubscriberService.CreateSubscriber,
      NewSubscriber, new_object; simpl.
    unfold InMemorySubscriberRepository.Create, InMemoryCache.Set', deref; simpl.
    rewrite !lookup_insert_eq; simpl. rewrite HR; simpl.
    intros [= <- _]. by eexists. }
  destruct Hres as [p ->]. exists p, w1. split; [done|].
  destruct (Create_state _ _ _ _ _ _ _ HC) as (Hc & Hrp & _).
  split; [by apply (Create_object _ _ _ _ _ _ _ HC)|]. split; [done|].
  intros item. rewrite Hc. by intros [= <-].
Qed.

Lemma coherent_ext id w w' :
  cache_items w' = cache_items w ->
  repo_subscribers w' = repo_subscribers w ->
  coherent id w -> coherent id w'.
Proof. intros Hc Hr Hcoh item. rewrite Hc, Hr. apply Hcoh. Qed.

(** X27. What is posted can be fetched: a POST with a well-formed body and
    an id that is not in the store is answered 201 with the new subscriber
    (the request's email and name, both dates at the instant of creation),
    and a GET of that id afterwards, at any instant and under any spelling
    of the id that parses to it, is answered 200 with the same
    subscriber. *)
Theorem http_post_then_get newID tNew tSet req tGet tSet' idParam w :
  repo_subscribers w !! newID = None ->
  uuid_Parse idParam = Ok newID ->
  uuid_Parse (uuid_String newID) = Ok newID ->
  let posted := router (POST newID tNew tSet (Ok req)) w in
  let body := SubscriberBody
                (mkSubscriber newID (req_Email req) (req_Name req) tNew tNew) in
  fst posted = mkResponse StatusCreated body /\
  fst (router (GET tGet tSet' idParam) (snd posted)) = mkResponse StatusOK body.
Proof.
  intros HR HPi HP posted body. subst posted body.
  unfold router, route, SubscriberHandler.CreateSubscriber,
    SubscriberHandler.GetSubscriber.
  set (w0 := InfoWithTracing "Received create subscriber request" _ w).
  destruct (CreateSubscriber_fresh newID tNew tSet req w0 HR)
    as (p & w1 & HC & Hobj & Hrp & Hcoh).
  unfold Application.CreateSubscriber in HC. rewrite HC, HPi.
  cbn [fst snd].
  set (w2 := InfoWithTracing "Received get subscriber request" _ _).
  assert (Hcoh2 : coherent newID w2) by (by apply (coherent_ext newID w1)).
  destruct (read_coherent tGet tSet' newID w2 HP Hcoh2) as [Hh Hres].
  unfold Application.GetSubscriber in Hh, Hres.
  destruct (SubscriberService.GetSubscriber _ _ tGet tSet' newID w2) as [res w3].
  cbn [fst snd] in Hh, Hres.
  assert (Hrp2 : repo_subscribers w2 !! newID = Some p) by done.
  rewrite Hrp2 in Hres. subst res. cbn [fst snd].
  unfold deref. cbn [heap InfoWithTracing log set_logs]. rewrite Hh.
  cbn [heap InfoWithTracing log set_logs span_End set_recorder w2].
  by rewrite Hobj.
Qed.

(** X28. An update is visible at once: a PUT with a well-formed body for a
    stored subscriber is answered 200 with the subscriber as updated (the
    request's email and name, the id and the creation date kept, the
    update date read by the repository), and a GET of the id afterwards,
    at any instant, is answered 200 with that same content. *)
Theorem http_put_then_get id p s tNow tRepo req tGet tSet idParam w :
  repo_subscribers w !! id = Some p ->
  heap w !! p = Some s ->
  ID s = id ->
  uuid_Parse idParam = Ok id ->
  uuid_Parse (uuid_String id) = Ok id ->
  let put := router (PUT tNow tRepo idParam (Ok req)) w in
  let body := SubscriberBody
                (mkSubscriber id (req_Email req) (req_Name req) (CreatedAt s) tRepo) in
  fst put = mkResponse StatusOK body /\
  fst (router (GET tGet tSet idParam) (snd put)) = mkResponse StatusOK body.
Proof.
  intros HR Hs HI HPi HP put body. subst put body.
  unfold router, route, SubscriberHandler.UpdateSubscriber,
    SubscriberHandler.GetSubscriber. rewrite HPi.
  set (w0 := InfoWithTracing "Received update subscriber request" _ w).
  destruct (UpdateSubscriber_ok tNow tRepo id req w0 p s HP HR Hs HI)
    as (l & _ & Hres & Hh & Hrp & Hc & _).
  unfold Application.UpdateSubscriber in Hres, Hh, Hrp, Hc.
  destruct (SubscriberService.UpdateSubscriber _ _ tNow tRepo id req w0) as [res w1].
  cbn [fst snd] in Hres, Hh, Hrp, Hc. subst res. cbn [fst snd].
  assert (Hobj : heap w1 !! p
                 = Some (mkSubscriber id (req_Email req) (req_Name req) (CreatedAt s) tRepo)).
  { by rewrite Hh, lookup_insert_eq. }
  set (w2 := InfoWithTracing "Received get subscriber request" _ _).
  assert (Hcoh2 : coherent id w2).
  { intros item. change (cache_items w2) with (cache_items w1).
    by rewrite Hc, lookup_delete_eq. }
  destruct (read_coherent tGet tSet id w2 HP Hcoh2) as [Hh2 Hres2].
  unfold Application.GetSubscriber in Hh2, Hres2.
  destruct (SubscriberService.GetSubscriber _ _ tGet tSet id w2) as [res w3].
  cbn [fst snd] in Hh2, Hres2.
  assert (Hrp2 : repo_subscribers w2 !! id = Some p).
  { change (repo_subscribers w2) with (repo_subscribers w1). by rewrite Hrp. }
  rewrite Hrp2 in Hres2. subst res. cbn [fst snd].
  unfold deref. cbn [heap InfoWithTracing log set_logs]. rewrite Hh2.
  cbn [heap InfoWithTracing log set_logs span_End set_recorder w2].
  by rewrite Hobj.
Qed.

(** X29. What is deleted is gone: a DELETE of a stored subscriber is
    answered 204 with no body, and afterwards a GET of the id, at any
    instant, a PUT and a second DELETE are all answered 404 "Subscriber
    not found". *)
Theorem http_delete_then_not_found id p tGet tSet tNow tRepo req idParam w :
  repo_subscribers w !! id = Some p ->
  uuid_Parse idParam = Ok id ->
  uuid_Parse (uuid_String id) = Ok id ->
  let deleted := router (DELETE idParam) w in
  let notFound := mkResponse StatusNotFound (ErrorBody "Subscriber not found") in
  fst deleted = mkResponse StatusNoContent NoBody /\
  fst (router (GET tGet tSet idParam) (snd deleted)) = notFound /\
  fst (router (PUT tNow tRepo idParam (Ok req)) (snd deleted)) = notFound /\
  fst (router (DELETE idParam) (snd deleted)) = notFound.
Proof.
  intros HR HPi HP deleted notFound. subst deleted notFound.
  unfold router, route, SubscriberHandler.DeleteSubscriber,
    SubscriberHandler.GetSubscriber, SubscriberHandler.UpdateSubscriber.
  rewrite HPi.
  set (w0 := InfoWithTracing "Received delete subscriber request" _ w).
  destruct (DeleteSubscriber_ok id w0 p HP HR) as (l & _ & Hres & _ & Hrp & Hc & _).
  unfold Application.DeleteSubscriber in Hres, Hrp, Hc.
  destruct (SubscriberService.DeleteSubscriber _ _ id w0) as [res w1].
  cbn [fst snd] in Hres, Hrp, Hc. subst res. cbn [fst snd].
  split; [done|].
  assert (Hr1 : repo_subscribers w1 !! id = None) by (by rewrite Hrp, lookup_delete_eq).
  assert (Hc1 : cache_items w1 !! GenerateCacheKey id = None)
    by (by rewrite Hc, lookup_delete_eq).
  split; [|split].
  - set (w2 := InfoWithTracing "Received get subscriber request" _ _).
    destruct (GetSubscriber_miss_absent tGet tSet id w2) as (Hres2 & _);
      [unfold cache_missed; by change (cache_items w2) with (cache_items w1); rewrite Hc1
      | done | done |].
    unfold Application.GetSubscriber in Hres2.
    destruct (SubscriberService.GetSubscriber _ _ tGet tSet id w2) as [res w3].
    cbn [fst] in Hres2. by subst res.
  - set (w2 := InfoWithTracing "Received update subscriber request" _ _).
    destruct (UpdateSubscriber_absent tNow tRepo id req w2 HP) as (l2 & _ & Hres2 & _);
      [done|].
    unfold Application.UpdateSubscriber in Hres2.
    destruct (SubscriberService.UpdateSubscriber _ _ tNow tRepo id req w2) as [res w3].
    cbn [fst] in Hres2. by subst res.
  - set (w2 := InfoWithTracing "Received delete subscriber request" _ _).
    destruct (DeleteSubscriber_absent id w2 HP) as (l2 & _ & Hres2 & _); [done|].
    unfold Application.DeleteSubscriber in Hres2.
    destruct (SubscriberService.DeleteSubscriber _ _ id w2) as [res w3].
    cbn [fst] in Hres2. by subst res.
Qed.

(** X30. The list route answers 200 with the content of every stored
    subscriber, one per id, whatever the state of the cache, which it
    leaves as it is; it records one [database.read] span, the service's
    span and the handler's, and no span of the cache. *)
Theorem http_list_returns_the_store w :
  exists l,
    fst (router LIST w) = mkResponse StatusOK (SubscribersBody l) /\
    length l = size (repo_subscribers w) /\
    (forall s, In s l <-> exists id p, repo_subscribers w !! id = Some p /\ deref w p = s) /\
    cache_items (snd (router LIST w)) = cache_items w /\
    map (attr_values "operation") (emitted (router LIST) w)
      = [[VString "database.read"]; []; []].
Proof.
  eexists. split; [reflexivity|].
  split; [by rewrite !length_map, length_map_to_list|].
  split; [|split; [done|]].
  - intros s. rewrite in_map_iff. split.
    + intros (p & <- & Hin). apply in_map_iff in Hin as ([id q] & <- & Hin).
      exists id, q. split; [|done]. by apply elem_of_map_to_list, list_elem_of_In.
    + intros (id & p & Hid & <-). exists p. split; [done|].
      apply in_map_iff. exists (id, p). split; [done|].
      by apply list_elem_of_In, elem_of_map_to_list.
  - assert (exists l', recorder (snd (router LIST w)) = recorder w ++ l' /\
              map (attr_values "operation") l' = [[VString "database.read"]; []; []])
      as (l' & Hl & <-).
    { unfold router, route, SubscriberHandler.GetAllSubscribers; simpl.
      unfold TestSpanRecorder.ExportSpans. eexists.
      split; [rewrite <- !app_assoc; simpl; reflexivity | reflexivity]. }
    by rewrite (emitted_app _ _ l' Hl).
Qed.

End HandlerLaws.

(** ** The Dapr repository *)

Section DaprLaws.
Context `{Library}.
Variables c c' : DaprClient.
Variable storeName : string.

Lemma Dapr_GetByID_same id w :
  @GetState c = @GetState c' ->
  @json_Unmarshal c = @json_Unmarshal c' ->
  @DaprSubscriberRepository.GetByID c storeName id w
  = @DaprSubscriberRepository.GetByID c' storeName id w.
Proof.
  intros HG HJ. unfold DaprSubscriberRepository.GetByID. by rewrite HG, HJ.
Qed.

(** X10. The Dapr repository looks a subscriber up before it writes: when
    the lookup fails, because the state store returned an error, holds an
    empty value for the key ("subscriber not found") or holds a value that
    does not decode, [Delete] and [Update] return the lookup's error and
    make no [DeleteState] or [SaveState] call: the run is the same with any
    other client that answers [GetState] and decodes in the same way. *)
Theorem Dapr_looks_up_before_writing id (subscriber : loc) e w :
  @GetState c = @GetState c' ->
  @json_Unmarshal c = @json_Unmarshal c' ->
  (fst (@DaprSubscriberRepository.GetByID c storeName id w) = Err e ->
   fst (@DaprSubscriberRepository.Delete c storeName id w) = Some e /\
   @DaprSubscriberRepository.Delete c storeName id w
     = @DaprSubscriberRepository.Delete c' storeName id w) /\
  (fst (@DaprSubscriberRepository.GetByID c storeName
          (uuid_String (ID (deref w subscriber))) w) = Err e ->
   fst (@DaprSubscriberRepository.Update _ c storeName subscriber w) = Some e /\
   @DaprSubscriberRepository.Update _ c storeName subscriber w
     = @DaprSubscriberRepository.Update _ c' storeName subscriber w) /\
  (fst (@GetState c storeName id w) = Ok "" ->
   fst (@DaprSubscriberRepository.GetByID c storeName id w) = Err "subscriber not found").
Proof.
  intros HG HJ. split; [|split].
  - intros HE. unfold DaprSubscriberRepository.Delete.
    rewrite <- (Dapr_GetByID_same id w HG HJ).
    destruct (@DaprSubscriberRepository.GetByID c storeName id w) as [[p|e'] w1];
      simpl in HE; [discriminate|]. by injection HE as ->.
  - intros HE. unfold DaprSubscriberRepository.Update.
    rewrite <- (Dapr_GetByID_same _ w HG HJ).
    destruct (@DaprSubscriberRepository.GetByID c storeName _ w) as [[p|e'] w1];
      simpl in HE; [discriminate|]. by injection HE as ->.
  - intros HE. unfold DaprSubscriberRepository.GetByID.
    destruct (@GetState c storeName id w) as [item w1]. simpl in HE. by subst item.
Qed.

End DaprLaws.

(** * Examples *)

Section Examples.
#[local] Existing Instance Canonical.library.
Import Scenario.

(** C1, where the claim fails. Alice is created and read after one minute;
    a second read six minutes after the create finds the entry expired and
    goes to the repository: it records a [database.read] span. And a read
    of a subscriber the repository does not have returns the repository's
    error without any [Set] on the cache. *)
Lemma late_second_read_reaches_origin :
  fst created = Ok 1%positive /\
  is_Ok (fst (secondReadLate afterFirstRead)) = true /\
  length (TestSpanRecorder.GetSpansByOperation
            (emitted secondReadLate afterFirstRead) "database.read") = 1%nat /\
  is_Ok (fst (readUnknown emptyWorld)) = false /\
  map span_Name (emitted readUnknown emptyWorld)
    = ["cache.get"; "subscriber.repository.get_by_id"; "subscriber.service.get"] /\
  TestSpanRecorder.GetSpansByOperation (emitted readUnknown emptyWorld) "cache.write" = [].
Proof. vm_compute. repeat split. Qed.

Lemma second_read_is_served_from_cache_witness :
  Application.CreateSubscriber id1 0 0 alice emptyWorld = (Ok 1%positive, snd created) /\
  uuid_Parse (uuid_String id1) = Ok id1 /\
  (2 * Minute <= Time_Add (last_population 0 (1 * Minute) (1 * Minute)) (5 * Minute))%Z /\
  fst (secondReadEarly afterFirstRead) = Ok 1%positive /\
  TestSpanRecorder.GetSpansByOperation
    (emitted secondReadEarly afterFirstRead) "database.read" = [].
Proof.
  assert (H1 : Application.CreateSubscriber id1 0 0 alice emptyWorld
               = (Ok 1%positive, snd created)) by (vm_compute; reflexivity).
  assert (H2 : uuid_Parse (uuid_String id1) = Ok id1) by (vm_compute; reflexivity).
  assert (H3 : (2 * Minute
                <= Time_Add (last_population 0 (1 * Minute) (1 * Minute)) (5 * Minute))%Z)
    by (vm_compute; discriminate).
  destruct (second_read_is_served_from_cache
              id1 0 0 alice (1 * Minute) (1 * Minute) (2 * Minute) (2 * Minute)
              emptyWorld 1%positive (snd created) H1 H2 H3) as (A & B & _).
  repeat split; assumption.
Defined.

(** C2, where the claim fails. With a TTL of five minutes set at instant 0,
    a [Get] exactly five minutes later still finds the value; and once the
    reaper has woken after the expiry, a later [Get] reports
    [cache.result = "miss"], not ["expired"]. *)
Lemma entry_found_at_its_expiry_instant :
  fst (InMemoryCache.Get (0 + 5 * Minute) "k" afterSet) = Ok 1%positive /\
  map (attr_values "cache.result")
      (emitted (InMemoryCache.Get (8 * Minute) "k")
               (InMemoryCache.cleanup_tick (7 * Minute) afterSet))
    = [[VString "miss"]].
Proof. vm_compute. repeat split. Qed.

Lemma Get_after_Set_expiry_witness :
  Forall (fun s => (s <= 0 + 5 * Minute)%Z) [1 * Minute; 2 * Minute]%Z /\
  (5 * Minute <= 5 * Minute)%Z /\
  fst (InMemoryCache.Get (0 + 5 * Minute) "k"
         (InMemoryCache.cleanup [1 * Minute; 2 * Minute]%Z afterSet)) = Ok 1%positive.
Proof.
  assert (H1 : Forall (fun s => (s <= 0 + 5 * Minute)%Z) [1 * Minute; 2 * Minute]%Z)
    by (repeat constructor; vm_compute; discriminate).
  assert (H2 : (5 * Minute <= 5 * Minute)%Z) by lia.
  split; [exact H1 | split; [exact H2|]].
  exact (proj1 (proj1 (Get_after_Set_expiry "k" 1%positive (5 * Minute) 0 (5 * Minute)
                         [1 * Minute; 2 * Minute]%Z oneObject H1) H2)).
Defined.

(** C3, where the claim fails. On an empty cache [Get] returns a non-nil
    error. *)
Lemma missing_key_is_reported_as_error :
  fst (InMemoryCache.Get 0 "subscriber:unknown" emptyWorld)
    = Err "key not found in cache".
Proof. reflexivity. Qed.

(** C4, at a concrete call. On the empty store, [Delete] of the Dapr
    repository records its lookup under [database.read] and nothing under
    [database.write]: its own span is tagged [database.delete]. *)
Lemma Dapr_Delete_not_found_under_database_write :
  map span_Name (recorder (snd (daprDelete emptyWorld)))
    = ["subscriber.repository.get_by_id"; "subscriber.repository.delete"] /\
  map (attr_values "operation") (recorder (snd (daprDelete emptyWorld)))
    = [[VString "database.read"]; [VString "database.delete"]] /\
  TestSpanRecorder.GetSpansByOperation (recorder (snd (daprDelete emptyWorld)))
    "database.write" = [].
Proof. vm_compute. repeat split. Qed.

Lemma origin_errors_abort_cache_errors_warn_witness :
  fst (cache_Set (failingCache "cache unavailable") 0
         (GenerateCacheKey id1) 1%positive (5 * Minute) emptyWorld)
    = Some "cache unavailable" /\
  fst (SubscriberService.CreateSubscriber NewInMemorySubscriberRepository
         (failingCache "cache unavailable") id1 0 0 alice emptyWorld)
    = Ok 1%positive.
Proof.
  split; [reflexivity|].
  destruct (origin_errors_abort_cache_errors_warn
              NewInMemorySubscriberRepository (failingCache "cache unavailable")
              NewInMemoryCache id1 0 0 0 0 0 id1 alice emptyWorld)
    as [(_ & HC & _) _].
  destruct (HC ltac:(vm_compute; reflexivity)) as [HR _].
  exact HR.
Defined.

Lemma mutation_error_leaves_store_witness :
  fst (mutate (CreateCall 1%positive) (snd created))
    = Some "subscriber with ID 00000000-0000-0000-0000-000000000001 already exists" /\
  repo_subscribers (snd (mutate (CreateCall 1%positive) (snd created)))
    = repo_subscribers (snd created).
Proof.
  assert (H1 : fst (mutate (CreateCall 1%positive) (snd created))
               = Some "subscriber with ID 00000000-0000-0000-0000-000000000001 already exists")
    by (vm_compute; reflexivity).
  split; [exact H1|].
  exact (proj1 (mutation_error_leaves_store _ _ _ H1)).
Defined.

End Examples.

(** * Examples for the further properties *)

Section MoreExamples.
#[local] Existing Instance Canonical.library.
Import Scenario Cases.

Lemma reaper_invisible_to_Get_witness :
  Forall (fun s => (s <= 3 * Minute)%Z) [1 * Minute; 2 * Minute]%Z /\
  (fst (InMemoryCache.Get (3 * Minute) "k"
          (InMemoryCache.cleanup [1 * Minute; 2 * Minute]%Z afterSet)) = Ok 1%positive <->
   fst (InMemoryCache.Get (3 * Minute) "k" afterSet) = Ok 1%positive).
Proof.
  assert (H1 : Forall (fun s => (s <= 3 * Minute)%Z) [1 * Minute; 2 * Minute]%Z)
    by (repeat constructor; vm_compute; discriminate).
  split; [exact H1|].
  exact (reaper_invisible_to_Get [1 * Minute; 2 * Minute]%Z (3 * Minute) "k"
           afterSet 1%positive H1).
Defined.

Lemma Get_unaffected_by_other_keys_witness :
  "other" <> "k" /\
  fst (InMemoryCache.Get 0 "other"
         (snd (InMemoryCache.Set' 0 "k" 1%positive (5 * Minute) oneObject)))
    = fst (InMemoryCache.Get 0 "other" oneObject).
Proof.
  assert (H1 : "other" <> "k") by discriminate.
  split; [exact H1|].
  exact (proj1 (Get_unaffected_by_other_keys 0 0 "k" "other" 1%positive (5 * Minute)
                  oneObject H1)).
Defined.

Lemma GenerateCacheKey_injective_witness :
  uuid_Parse (uuid_String id1) = Ok id1 /\
  uuid_Parse (uuid_String id2) = Ok id2 /\
  (GenerateCacheKey id1 = GenerateCacheKey id2 <-> id1 = id2).
Proof.
  assert (H1 : uuid_Parse (uuid_String id1) = Ok id1) by (vm_compute; reflexivity).
  assert (H2 : uuid_Parse (uuid_String id2) = Ok id2) by (vm_compute; reflexivity).
  split; [exact H1 | split; [exact H2|]].
  exact (GenerateCacheKey_injective id1 id2 H1 H2).
Defined.

Lemma Create_then_GetByID_witness :
  fst (InMemorySubscriberRepository.Create 1%positive oneObject) = None /\
  uuid_Parse (uuid_String (ID (deref oneObject 1%positive)))
    = Ok (ID (deref oneObject 1%positive)) /\
  fst (InMemorySubscriberRepository.GetByID
         (uuid_String (ID (deref oneObject 1%positive)))
         (snd (InMemorySubscriberRepository.Create 1%positive oneObject)))
    = Ok 1%positive.
Proof.
  assert (H1 : fst (InMemorySubscriberRepository.Create 1%positive oneObject) = None)
    by (vm_compute; reflexivity).
  assert (H2 : uuid_Parse (uuid_String (ID (deref oneObject 1%positive)))
               = Ok (ID (deref oneObject 1%positive))) by (vm_compute; reflexivity).
  split; [exact H1 | split; [exact H2|]].
  exact (proj1 (Create_then_GetByID 1%positive oneObject H1 H2)).
Defined.

Lemma Create_rejects_duplicate_id_witness :
  fst (InMemorySubscriberRepository.Create 1%positive oneObject) = None /\
  ID (deref oneObject 1%positive) = ID (deref oneObject 1%positive) /\
  fst (InMemorySubscriberRepository.Create 1%positive
         (snd (InMemorySubscriberRepository.Create 1%positive oneObject)))
    = Some ("subscriber with ID " +:+ uuid_String (ID (deref oneObject 1%positive))
            +:+ " already exists").
Proof.
  assert (H1 : fst (InMemorySubscriberRepository.Create 1%positive oneObject) = None)
    by (vm_compute; reflexivity).
  split; [exact H1 | split; [reflexivity|]].
  exact (proj1 (proj2 (proj2
           (Create_rejects_duplicate_id 1%positive 1%positive oneObject H1 eq_refl)))).
Defined.

Lemma Delete_then_not_found_witness :
  fst (InMemorySubscriberRepository.Delete text1 stored) = None /\
  fst (InMemorySubscriberRepository.Delete text1
         (snd (InMemorySubscriberRepository.Delete text1 stored)))
    = Some ("subscriber with ID " +:+ text1 +:+ " not found").
Proof.
  assert (H1 : fst (InMemorySubscriberRepository.Delete text1 stored) = None)
    by (vm_compute; reflexivity).
  split; [exact H1|].
  exact (proj1 (proj2 (proj2 (Delete_then_not_found text1 stored H1)))).
Defined.

Lemma Update_stamps_and_stores_witness :
  fst (InMemorySubscriberRepository.Update 7 1%positive stored) = None /\
  2%positive <> 1%positive /\
  deref (snd (InMemorySubscriberRepository.Update 7 1%positive stored)) 1%positive
    = mkSubscriber (ID (deref stored 1%positive)) (Email (deref stored 1%positive))
        (Name (deref stored 1%positive)) (CreatedAt (deref stored 1%positive)) 7.
Proof.
  assert (H1 : fst (InMemorySubscriberRepository.Update 7 1%positive stored) = None)
    by (vm_compute; reflexivity).
  assert (H2 : 2%positive <> 1%positive) by discriminate.
  split; [exact H1 | split; [exact H2|]].
  exact (proj1 (proj2 (proj2
           (Update_stamps_and_stores 7 1%positive 2%positive stored H1 H2)))).
Defined.

Lemma mutation_keeps_store_consistent_witness :
  store_consistent oneObject /\
  call_on_object (CreateCall 1%positive) oneObject /\
  store_consistent (snd (mutate (CreateCall 1%positive) oneObject)).
Proof.
  assert (H1 : store_consistent oneObject).
  { intros id p Hp. vm_compute in Hp. discriminate. }
  assert (H2 : call_on_object (CreateCall 1%positive) oneObject).
  { exists aliceObject. vm_compute. reflexivity. }
  split; [exact H1 | split; [exact H2|]].
  exact (mutation_keeps_store_consistent (CreateCall 1%positive) oneObject H1 H2).
Defined.

Lemma created_is_stored :
  Application.CreateSubscriber id1 0 0 alice emptyWorld = (Ok 1%positive, stored).
Proof. vm_compute. reflexivity. Defined.

Lemma id1_round_trip : uuid_Parse (uuid_String id1) = Ok id1.
Proof. vm_compute. reflexivity. Defined.

Lemma id2_round_trip : uuid_Parse (uuid_String id2) = Ok id2.
Proof. vm_compute. reflexivity. Defined.

Lemma read_your_writes_witness :
  Application.CreateSubscriber id1 0 0 alice emptyWorld = (Ok 1%positive, stored) /\
  uuid_Parse (uuid_String id1) = Ok id1 /\
  fst (Application.GetSubscriber (9 * Minute) (9 * Minute) id1
         (InMemoryCache.cleanup [6 * Minute]%Z stored)) = Ok 1%positive.
Proof.
  split; [exact created_is_stored | split; [exact id1_round_trip|]].
  exact (proj1 (read_your_writes id1 0 0 alice emptyWorld 1%positive stored
                  [6 * Minute]%Z (9 * Minute) (9 * Minute)
                  created_is_stored id1_round_trip)).
Defined.

Lemma read_after_Clear_reaches_origin_witness :
  Application.CreateSubscriber id1 0 0 alice emptyWorld = (Ok 1%positive, stored) /\
  uuid_Parse (uuid_String id1) = Ok id1 /\
  fst (Application.GetSubscriber 1 1 id1 (snd (InMemoryCache.Clear stored)))
    = Ok 1%positive.
Proof.
  split; [exact created_is_stored | split; [exact id1_round_trip|]].
  exact (proj1 (read_after_Clear_reaches_origin id1 0 0 alice emptyWorld 1%positive
                  stored 1 1 created_is_stored id1_round_trip)).
Defined.

Lemma read_of_unknown_id_witness :
  cache_missed 0 (GenerateCacheKey id2) stored /\
  uuid_Parse (uuid_String id2) = Ok id2 /\
  repo_subscribers stored !! id2 = None /\
  cache_items (snd (Application.GetSubscriber 0 0 id2 stored)) = cache_items stored.
Proof.
  assert (H1 : cache_missed 0 (GenerateCacheKey id2) stored) by (vm_compute; exact I).
  assert (H3 : repo_subscribers stored !! id2 = None) by (vm_compute; reflexivity).
  split; [exact H1 | split; [exact id2_round_trip | split; [exact H3|]]].
  exact (proj1 (proj2 (read_of_unknown_id 0 0 id2 stored H1 id2_round_trip H3))).
Defined.

Lemma alice_is_stored :
  repo_subscribers stored !! id1 = Some 1%positive /\
  heap stored !! 1%positive = Some aliceObject /\
  ID aliceObject = id1.
Proof. vm_compute. repeat split. Defined.

Lemma update_invalidates_cache_witness :
  uuid_Parse (uuid_String id1) = Ok id1 /\
  repo_subscribers stored !! id1 = Some 1%positive /\
  heap stored !! 1%positive = Some aliceObject /\
  ID aliceObject = id1 /\
  fst (Application.UpdateSubscriber 3 4 id1 bob stored) = Ok 1%positive /\
  deref (snd (Application.UpdateSubscriber 3 4 id1 bob stored)) 1%positive
    = mkSubscriber id1 "b@x.com" "Bob" 0 4.
Proof.
  destruct alice_is_stored as (H2 & H3 & H4).
  split; [exact id1_round_trip|].
  split; [exact H2 | split; [exact H3 | split; [exact H4|]]].
  destruct (update_invalidates_cache 3 4 id1 bob stored 1%positive aliceObject 5 5
              id1_round_trip H2 H3 H4) as (A & B & _).
  split; [exact A | exact B].
Defined.

Lemma delete_forgets_subscriber_witness :
  uuid_Parse (uuid_String id1) = Ok id1 /\
  repo_subscribers stored !! id1 = Some 1%positive /\
  fst (Application.DeleteSubscriber id1 stored) = None /\
  fst (Application.GetSubscriber 0 0 id1 (snd (Application.DeleteSubscriber id1 stored)))
    = Err ("subscriber with ID " +:+ uuid_String id1 +:+ " not found").
Proof.
  destruct alice_is_stored as (H2 & _).
  split; [exact id1_round_trip | split; [exact H2|]].
  destruct (delete_forgets_subscriber id1 stored 1%positive 0 0 id1_round_trip H2)
    as (A & _ & _ & B & _).
  split; [exact A | exact B].
Defined.

Lemma unknown_id_changes_nothing_witness :
  uuid_Parse (uuid_String id2) = Ok id2 /\
  repo_subscribers stored !! id2 = None /\
  fst (Application.DeleteSubscriber id2 stored)
    = Some ("subscriber with ID " +:+ uuid_String id2 +:+ " not found").
Proof.
  assert (H2 : repo_subscribers stored !! id2 = None) by (vm_compute; reflexivity).
  split; [exact id2_round_trip | split; [exact H2|]].
  exact (proj1 (proj2 (unknown_id_changes_nothing 0 0 id2 bob stored
                         id2_round_trip H2))).
Defined.


Lemma cache_is_transparent_witness :
  uuid_Parse (uuid_String id1) = Ok id1 /\
  coherent id1 stored /\
  fst (Application.GetSubscriber 0 0 id1 stored)
    = fst (InMemorySubscriberRepository.GetByID (uuid_String id1) stored).
Proof.
  assert (H2 : coherent id1 stored).
  { intros item Hi. vm_compute in Hi. injection Hi as <-. vm_compute. reflexivity. }
  split; [exact id1_round_trip | split; [exact H2|]].
  exact (proj1 (cache_is_transparent 0 0 id1 stored id1_round_trip H2)).
Defined.

Lemma invalid_id_refused_before_any_access_witness :
  id_param (GET 0 0 "not-a-uuid") = Some "not-a-uuid" /\
  uuid_Parse "not-a-uuid" = Err "invalid UUID length" /\
  fst (router (GET 0 0 "not-a-uuid") stored)
    = mkResponse StatusBadRequest (ErrorBody "Invalid subscriber ID").
Proof.
  assert (H2 : uuid_Parse "not-a-uuid" = Err "invalid UUID length")
    by (vm_compute; reflexivity).
  split; [reflexivity | split; [exact H2|]].
  exact (proj1 (invalid_id_refused_before_any_access
                  NewInMemorySubscriberRepository NewInMemorySubscriberRepository
                  NewInMemoryCache (failingCache "cache unavailable")
                  (GET 0 0 "not-a-uuid") "not-a-uuid" "invalid UUID length" stored
                  eq_refl H2)).
Defined.

Lemma http_post_then_get_witness :
  repo_subscribers emptyWorld !! id1 = None /\
  uuid_Parse text1 = Ok id1 /\
  uuid_Parse (uuid_String id1) = Ok id1 /\
  fst (router (POST id1 0 0 (Ok alice)) emptyWorld)
    = mkResponse StatusCreated (SubscriberBody aliceObject) /\
  fst (router (GET (9 * Minute) (9 * Minute) text1)
         (snd (router (POST id1 0 0 (Ok alice)) emptyWorld)))
    = mkResponse StatusOK (SubscriberBody aliceObject).
Proof.
  assert (H1 : repo_subscribers emptyWorld !! id1 = None) by (vm_compute; reflexivity).
  assert (H2 : uuid_Parse text1 = Ok id1) by (vm_compute; reflexivity).
  split; [exact H1 | split; [exact H2 | split; [exact id1_round_trip|]]].
  exact (http_post_then_get id1 0 0 alice (9 * Minute) (9 * Minute) text1 emptyWorld
           H1 H2 id1_round_trip).
Defined.

Lemma http_put_then_get_witness :
  repo_subscribers stored !! id1 = Some 1%positive /\
  heap stored !! 1%positive = Some aliceObject /\
  ID aliceObject = id1 /\
  uuid_Parse text1 = Ok id1 /\
  uuid_Parse (uuid_String id1) = Ok id1 /\
  fst (router (PUT 3 4 text1 (Ok bob)) stored)
    = mkResponse StatusOK (SubscriberBody (mkSubscriber id1 "b@x.com" "Bob" 0 4)).
Proof.
  destruct alice_is_stored as (H1 & H2 & H3).
  assert (H4 : uuid_Parse text1 = Ok id1) by (vm_compute; reflexivity).
  split; [exact H1 | split; [exact H2 | split; [exact H3 | split; [exact H4|]]]].
  split; [exact id1_round_trip|].
  exact (proj1 (http_put_then_get id1 1%positive aliceObject 3 4 bob 5 5 text1 stored
                  H1 H2 H3 H4 id1_round_trip)).
Defined.

Lemma http_delete_then_not_found_witness :
  repo_subscribers stored !! id1 = Some 1%positive /\
  uuid_Parse text1 = Ok id1 /\
  uuid_Parse (uuid_String id1) = Ok id1 /\
  fst (router (DELETE text1) stored) = mkResponse StatusNoContent NoBody /\
  fst (router (GET 0 0 text1) (snd (router (DELETE text1) stored)))
    = mkResponse StatusNotFound (ErrorBody "Subscriber not found").
Proof.
  destruct alice_is_stored as (H1 & _).
  assert (H2 : uuid_Parse text1 = Ok id1) by (vm_compute; reflexivity).
  split; [exact H1 | split; [exact H2 | split; [exact id1_round_trip|]]].
  destruct (http_delete_then_not_found id1 1%positive 0 0 0 0 bob text1 stored
              H1 H2 id1_round_trip) as (A & B & _).
  split; [exact A | exact B].
Defined.

Lemma Dapr_looks_up_before_writing_witness :
  @GetState emptyStore = @GetState readOnlyStore /\
  @json_Unmarshal emptyStore = @json_Unmarshal readOnlyStore /\
  fst (@DaprSubscriberRepository.GetByID emptyStore "statestore" text1 emptyWorld)
    = Err "subscriber not found" /\
  @DaprSubscriberRepository.Delete emptyStore "statestore" text1 emptyWorld
    = @DaprSubscriberRepository.Delete readOnlyStore "statestore" text1 emptyWorld.
Proof.
  assert (H3 : fst (@DaprSubscriberRepository.GetByID emptyStore "statestore" text1
                      emptyWorld) = Err "subscriber not found")
    by (vm_compute; reflexivity).
  split; [reflexivity | split; [reflexivity | split; [exact H3|]]].
  exact (proj2 (proj1 (Dapr_looks_up_before_writing emptyStore readOnlyStore
                         "statestore" text1 1%positive "subscriber not found"
                         emptyWorld eq_refl eq_refl) H3)).
Defined.

End MoreExamples.
